(** * The build controller of the engine package

    A shallow embedding of [internal/engine/buildcontroller.go]: the
    admission decision [needsBuild], the subscriber entry point [OnChange]
    with the build it launches, the summary log line, the resolution of a
    manifest's targets and the assembly of the per-target build states. *)

From Stdlib Require Import ZArith String Ascii List Lia DecimalString DecimalPos DecimalZ.
From stdpp Require Import base option list sorting gmap strings.

Local Open Scope Z_scope.

(** ** Go's built-in types *)

Module GoInt.
(** Go's [int] on the 64-bit platforms the tool is built for: a signed
    two's-complement word. *)
Definition size : Z := 64.
Definition MinInt : Z := - 2 ^ (size - 1).
Definition MaxInt : Z := 2 ^ (size - 1) - 1.

Definition inRange (z : Z) : Prop := MinInt <= z <= MaxInt.

(** Reduction of a mathematical integer to the word that holds it. *)
Definition wrap (z : Z) : Z := (z - MinInt) mod 2 ^ size + MinInt.

(** [x + y] on [int]. *)
Definition add (x y : Z) : Z := wrap (x + y).
End GoInt.

Module fmt.
(** The verb [%d] of [fmt.Sprintf] applied to an integer: decimal digits,
    with a leading minus sign for a negative number. *)
Definition d (z : Z) : string := NilZero.string_of_int (Z.to_int z).
End fmt.

Module sort.
(** The order of Go's [<=] on strings: byte-wise lexicographic. *)
Definition le (s1 s2 : string) : Prop := String.leb s1 s2 = true.

#[global] Instance le_dec s1 s2 : Decision (le s1 s2).
Proof. unfold le. apply _. Defined.

(** [sort.Strings]. *)
Definition Strings (l : list string) : list string := merge_sort le l.
End sort.

(** ** Packages the controller imports *)

(** Modelled from the spec: [model.TargetType], the type tag of a target
    identity. The controller compares it with the tags of image,
    docker-compose and local targets; [TargetTypeK8s] is the tag of the
    fourth variant and [TargetTypeOther] stands for any other tag. *)
Inductive TargetType : Type :=
| TargetTypeImage
| TargetTypeK8s
| TargetTypeDockerCompose
| TargetTypeLocal
| TargetTypeOther (tag : string).

(** Modelled from the spec: [model.TargetID], a type tag and a name. *)
Record TargetID : Type := mkTargetID { Type_ : TargetType; Name_ : string }.

#[global] Instance TargetType_eq_dec : EqDecision TargetType.
Proof. solve_decision. Defined.

#[global] Instance TargetType_countable : Countable TargetType.
Proof.
  refine (inj_countable'
    (fun t => match t with
              | TargetTypeImage => inl 0%nat
              | TargetTypeK8s => inl 1%nat
              | TargetTypeDockerCompose => inl 2%nat
              | TargetTypeLocal => inl 3%nat
              | TargetTypeOther tag => inr tag
              end)
    (fun c => match c with
              | inl 0%nat => TargetTypeImage
              | inl 1%nat => TargetTypeK8s
              | inl 2%nat => TargetTypeDockerCompose
              | inl _ => TargetTypeLocal
              | inr tag => TargetTypeOther tag
              end) _).
  by intros [].
Defined.

#[global] Instance TargetID_eq_dec : EqDecision TargetID.
Proof. solve_decision. Defined.

#[global] Instance TargetID_countable : Countable TargetID.
Proof.
  refine (inj_countable' (fun i => (Type_ i, Name_ i))
                         (fun p => mkTargetID p.1 p.2) _).
  by intros [].
Defined.

(** [time.Time] as an instant on the integer time line, and [t.After(u)],
    which is strict. *)
Definition Time : Type := Z.
Definition After (t u : Time) : bool := bool_decide (u < t).

(** [pkg/logger]: severity levels. *)
Inductive Level : Type := NoneLvl | DebugLvl | VerboseLvl | InfoLvl | WarnLvl | ErrorLvl.

(** What the controller uses of [pkg/model], [internal/store], [pkg/logger]
    and [internal/ospath] without the engine package defining it: the types
    it only passes along, and the methods it calls on them. *)
Class Packages : Type := {
  (** values of Go's [error] interface *)
  error : Type;
  (** [model.BuildReason], its zero value and its [String] method *)
  BuildReason : Type;
  BuildReason_zero : BuildReason;
  BuildReason_String : BuildReason -> string;
  (** the four target structs, each with [ID] and [Validate] *)
  ImageTarget : Type;
  ImageTarget_ID : ImageTarget -> TargetID;
  ImageTarget_Validate : ImageTarget -> option error;
  DockerComposeTarget : Type;
  DockerComposeTarget_ID : DockerComposeTarget -> TargetID;
  DockerComposeTarget_Validate : DockerComposeTarget -> option error;
  K8sTarget : Type;
  K8sTarget_ID : K8sTarget -> TargetID;
  K8sTarget_Validate : K8sTarget -> option error;
  LocalTarget : Type;
  LocalTarget_ID : LocalTarget -> TargetID;
  LocalTarget_Validate : LocalTarget -> option error;
  (** [store.BuildResult], [store.ContainerInfo] and the runtime states *)
  BuildResult : Type;
  ContainerInfo : Type;
  K8sRuntimeState : Type;
  DCRuntimeState : Type;
  RunningContainersForTargetForOnePod :
    ImageTarget -> K8sRuntimeState -> list ContainerInfo * option error;
  RunningContainersForDC : DCRuntimeState -> list ContainerInfo;
  (** [logger.FieldNameBuildEvent] and [ospath.FormatFileChangeList] *)
  FieldNameBuildEvent : string;
  FormatFileChangeList : list string -> string;
}.

Section Engine.
Context `{Packages}.

(** [model.TargetSpec]: the interface over the four target structs. *)
Inductive TargetSpec : Type :=
| ImageTargetSpec (iTarget : ImageTarget)
| DockerComposeTargetSpec (dcTarget : DockerComposeTarget)
| K8sTargetSpec (k8sTarget : K8sTarget)
| LocalTargetSpec (localTarget : LocalTarget).

Definition ID (spec : TargetSpec) : TargetID :=
  match spec with
  | ImageTargetSpec t => ImageTarget_ID t
  | DockerComposeTargetSpec t => DockerComposeTarget_ID t
  | K8sTargetSpec t => K8sTarget_ID t
  | LocalTargetSpec t => LocalTarget_ID t
  end.

Definition Validate (spec : TargetSpec) : option error :=
  match spec with
  | ImageTargetSpec t => ImageTarget_Validate t
  | DockerComposeTargetSpec t => DockerComposeTarget_Validate t
  | K8sTargetSpec t => K8sTarget_Validate t
  | LocalTargetSpec t => LocalTarget_Validate t
  end.

(** Modelled from the spec: [model.Manifest], of which the controller reads
    the fields [Name] and [ImageTargets] and calls the methods [IsDC],
    [IsK8s], [IsLocal], [DockerComposeTarget], [K8sTarget] and
    [LocalTarget]; each method is recorded by what it returns. *)
Record Manifest : Type := {
  Manifest_Name : string;
  Manifest_ImageTargets : list ImageTarget;
  Manifest_IsDC : bool;
  Manifest_IsK8s : bool;
  Manifest_IsLocal : bool;
  Manifest_DockerComposeTarget : DockerComposeTarget;
  Manifest_K8sTarget : K8sTarget;
  Manifest_LocalTarget : LocalTarget;
}.

(** Modelled from the spec: [model.BuildRecord], the start time of a build
    and whether the record is the empty one. *)
Record BuildRecord : Type := {
  BuildRecord_StartTime : Time;
  BuildRecord_Empty : bool;
}.

(** Modelled from the spec: [store.BuildStatus], the pending file changes
    (file path to change time) and the last successful result. *)
Record BuildStatus : Type := {
  BuildStatus_PendingFileChanges : gmap string Time;
  BuildStatus_LastSuccessfulResult : BuildResult;
}.

(** Modelled from the spec: [store.ManifestState], the build history of one
    manifest as the controller reads it: two fields and the results of the
    methods [StartedFirstBuild], [LastBuild], [BuildStatus],
    [K8sRuntimeState] and [DCRuntimeState]. *)
Record ManifestState : Type := {
  ManifestState_NeedsRebuildFromCrash : bool;
  ManifestState_ConfigFilesThatCausedChange : list string;
  ManifestState_StartedFirstBuild : bool;
  ManifestState_LastBuild : BuildRecord;
  ManifestState_BuildStatus : TargetID -> BuildStatus;
  ManifestState_K8sRuntimeState : K8sRuntimeState;
  ManifestState_DCRuntimeState : DCRuntimeState;
}.

(** Modelled from the spec: [store.BuildState], the per-target input of one
    build: last successful result, changed files, running containers or
    the error met while looking for them, and the force-rebuild flag. *)
Record BuildState : Type := {
  BuildState_LastSuccessfulResult : BuildResult;
  BuildState_FilesChanged : list string;
  BuildState_RunningContainers : list ContainerInfo;
  BuildState_RunningContainerError : option error;
  BuildState_NeedsForceUpdate : bool;
}.

(** Modelled from the spec: [store.NewBuildState] builds a state from the
    last successful result and the changed-file list, nothing else set. *)
Definition NewBuildState (result : BuildResult) (files : list string) : BuildState :=
  {| BuildState_LastSuccessfulResult := result;
     BuildState_FilesChanged := files;
     BuildState_RunningContainers := [];
     BuildState_RunningContainerError := None;
     BuildState_NeedsForceUpdate := false |}.

(** Modelled from the spec: the [With...] methods of [store.BuildState]
    return a copy with one component replaced. *)
Definition WithRunningContainers (cInfos : list ContainerInfo) (b : BuildState) : BuildState :=
  {| BuildState_LastSuccessfulResult := BuildState_LastSuccessfulResult b;
     BuildState_FilesChanged := BuildState_FilesChanged b;
     BuildState_RunningContainers := cInfos;
     BuildState_RunningContainerError := BuildState_RunningContainerError b;
     BuildState_NeedsForceUpdate := BuildState_NeedsForceUpdate b |}.

Definition WithRunningContainerError (err : error) (b : BuildState) : BuildState :=
  {| BuildState_LastSuccessfulResult := BuildState_LastSuccessfulResult b;
     BuildState_FilesChanged := BuildState_FilesChanged b;
     BuildState_RunningContainers := BuildState_RunningContainers b;
     BuildState_RunningContainerError := Some err;
     BuildState_NeedsForceUpdate := BuildState_NeedsForceUpdate b |}.

Definition WithNeedsForceUpdate (needsForceUpdate : bool) (b : BuildState) : BuildState :=
  {| BuildState_LastSuccessfulResult := BuildState_LastSuccessfulResult b;
     BuildState_FilesChanged := BuildState_FilesChanged b;
     BuildState_RunningContainers := BuildState_RunningContainers b;
     BuildState_RunningContainerError := BuildState_RunningContainerError b;
     BuildState_NeedsForceUpdate := needsForceUpdate |}.

(** [store.BuildStateSet] and [store.BuildResultSet]: Go maps keyed by
    target identity. *)
Abbreviation BuildStateSet := (gmap TargetID BuildState).
Abbreviation BuildResultSet := (gmap TargetID BuildResult).

(** ** buildTargets *)

Definition buildTargets (manifest : Manifest) : list TargetSpec :=
  let result := foldl (fun result iTarget => result ++ [ImageTargetSpec iTarget])
                      [] (Manifest_ImageTargets manifest) in
  if Manifest_IsDC manifest then
    result ++ [DockerComposeTargetSpec (Manifest_DockerComposeTarget manifest)]
  else if Manifest_IsK8s manifest then
    result ++ [K8sTargetSpec (Manifest_K8sTarget manifest)]
  else if Manifest_IsLocal manifest then
    result ++ [LocalTargetSpec (Manifest_LocalTarget manifest)]
  else result.

(** ** buildStateSet *)

(** One round of the inner loop over [status.PendingFileChanges]: the file
    is appended to [filesChanged], and the flag shared by all targets is
    raised when the last build is empty or the change is after its start. *)
Definition pendingFileChangesStep (ms : ManifestState)
    (acc : list string * bool) (change : string * Time) : list string * bool :=
  let '(filesChanged, anyFilesChangedSinceLastBuild) := acc in
  let '(file, ts) := change in
  (filesChanged ++ [file],
   if BuildRecord_Empty (ManifestState_LastBuild ms)
      || After ts (BuildRecord_StartTime (ManifestState_LastBuild ms))
   then true else anyFilesChangedSinceLastBuild).

Definition pendingFileChangesLoop (ms : ManifestState)
    (pending : list (string * Time)) (anyFilesChangedSinceLastBuild : bool)
  : list string * bool :=
  foldl (pendingFileChangesStep ms) ([], anyFilesChangedSinceLastBuild) pending.

(** The types a spec must have for the loop not to [continue]. *)
Definition hasBuildState (ty : TargetType) : bool :=
  negb (bool_decide (ty <> TargetTypeImage)
        && bool_decide (ty <> TargetTypeDockerCompose)
        && bool_decide (ty <> TargetTypeLocal)).

(** The running containers passed along with the state of an image target. *)
Definition withContainers (manifest : Manifest) (ms : ManifestState)
    (spec : TargetSpec) (buildState : BuildState) : BuildState :=
  if negb (ManifestState_NeedsRebuildFromCrash ms) then
    match spec with
    | ImageTargetSpec iTarget =>
        let buildState :=
          if Manifest_IsK8s manifest then
            let '(cInfos, err) :=
              RunningContainersForTargetForOnePod iTarget (ManifestState_K8sRuntimeState ms) in
            match err with
            | Some err => WithRunningContainerError err buildState
            | None => WithRunningContainers cInfos buildState
            end
          else buildState in
        if Manifest_IsDC manifest then
          WithRunningContainers (RunningContainersForDC (ManifestState_DCRuntimeState ms)) buildState
        else buildState
    | _ => buildState
    end
  else buildState.

(** One round of the loop over [specs]. *)
Definition buildStateSetStep (manifest : Manifest) (ms : ManifestState)
    (acc : BuildStateSet * bool) (spec : TargetSpec) : BuildStateSet * bool :=
  let '(result, anyFilesChangedSinceLastBuild) := acc in
  let id := ID spec in
  if negb (hasBuildState (Type_ id)) then acc
  else
    let status := ManifestState_BuildStatus ms id in
    let '(filesChanged, anyFilesChangedSinceLastBuild) :=
      pendingFileChangesLoop ms (map_to_list (BuildStatus_PendingFileChanges status))
                             anyFilesChangedSinceLastBuild in
    let filesChanged := sort.Strings filesChanged in
    let buildState := NewBuildState (BuildStatus_LastSuccessfulResult status) filesChanged in
    let buildState := withContainers manifest ms spec buildState in
    (<[id := buildState]> result, anyFilesChangedSinceLastBuild).

Definition buildStateSet (manifest : Manifest) (specs : list TargetSpec)
    (ms : ManifestState) : BuildStateSet :=
  let '(result, anyFilesChangedSinceLastBuild) :=
    foldl (buildStateSetStep manifest ms) (∅, false) specs in
  if negb (ManifestState_NeedsRebuildFromCrash ms) && negb anyFilesChangedSinceLastBuild
  then WithNeedsForceUpdate true <$> result
  else result.

(** ** The controller *)

(** Modelled from the spec: [store.ManifestTarget], the candidate the
    selection returns: a manifest, its state, and the result of the method
    [NextBuildReason]. *)
Record ManifestTarget : Type := {
  ManifestTarget_Manifest : Manifest;
  ManifestTarget_State : ManifestState;
  ManifestTarget_NextBuildReason : BuildReason;
}.

(** What the controller sees of the store: the engine state it read-locks,
    the capacity and selection it asks of that state, and the aggregation
    method [FilesChanged] of a build state set. *)
Class Store : Type := {
  EngineState : Type;
  EngineState_StartedBuildCount : EngineState -> Z;
  EngineState_AvailableBuildSlots : EngineState -> Z;
  NextTargetToBuild : EngineState -> option ManifestTarget;
  BuildStateSet_FilesChanged : BuildStateSet -> list string;
}.
Context `{Store}.

Record buildEntry : Type := {
  entry_name : string;
  entry_targets : list TargetSpec;
  entry_buildStateSet : BuildStateSet;
  entry_filesChanged : list string;
  entry_buildReason : BuildReason;
  entry_firstBuild : bool;
  entry_spanID : string;
}.

(** The composite literal [buildEntry{}]. *)
Definition buildEntry_zero : buildEntry :=
  {| entry_name := "";
     entry_targets := [];
     entry_buildStateSet := ∅;
     entry_filesChanged := [];
     entry_buildReason := BuildReason_zero;
     entry_firstBuild := false;
     entry_spanID := "" |}.

(** [BuildAndDeployer]: the build engine, by the results it returns. *)
Definition BuildAndDeployer : Type :=
  list TargetSpec -> BuildStateSet -> BuildResultSet * option error.

Record BuildController : Type := {
  b : BuildAndDeployer;
  buildsStartedCount : Z;
  disabledForTesting : bool;
}.

Definition NewBuildController (b : BuildAndDeployer) : BuildController :=
  {| b := b; buildsStartedCount := 0; disabledForTesting := false |}.

(** The actions the controller dispatches to the store: the literal
    [buildcontrol.BuildStartedAction{...}] and what the constructors
    [buildcontrol.NewBuildCompleteAction] and [store.NewLogAction] are
    given. *)
Inductive Action : Type :=
| BuildStartedAction (ManifestName : string) (StartTime : Time)
    (FilesChanged : list string) (Reason : BuildReason) (SpanID : string)
| BuildCompleteAction (ManifestName : string) (SpanID : string)
    (Result : BuildResultSet) (Error : option error)
| LogAction (ManifestName : string) (SpanID : string) (level : Level)
    (fields : gmap string string) (p : string).

(** What a run of the controller does to its collaborators, in order. *)
Inductive Event : Type :=
| EvRLockState
| EvRUnlockState
| EvAvailableBuildSlots
| EvNextTargetToBuild
| EvDispatch (a : Action)
| EvBuildAndDeploy (targets : list TargetSpec) (stateSet : BuildStateSet)
| EvGo (entry : buildEntry).

(** Methods of the controller: they read and update the receiver and leave
    a trace of events. *)
Definition M (A : Type) : Type := BuildController -> A * BuildController * list Event.

#[local] Instance M_ret : MRet M := fun A a c => (a, c, []).
#[local] Instance M_bind : MBind M := fun A B f m c =>
  let '(a, c1, tr1) := m c in
  let '(r, c2, tr2) := f a c1 in
  (r, c2, tr1 ++ tr2).

Definition emit (e : Event) : M unit := fun c => (tt, c, [e]).
Definition receiver : M BuildController := fun c => (c, c, []).
Definition setBuildsStartedCount (n : Z) : M unit := fun c =>
  (tt, {| b := b c; buildsStartedCount := n; disabledForTesting := disabledForTesting c |}, []).

Definition SpanIDForBuildLog (buildCount : Z) : string :=
  "build:" +:+ fmt.d buildCount.

(** The part of [needsBuild] that runs between [RLockState] and the
    deferred [RUnlockState]. *)
Definition needsBuildLocked (state : EngineState) : M (buildEntry * bool) :=
  c ← receiver;
  if bool_decide (buildsStartedCount c <> EngineState_StartedBuildCount state) then
    mret (buildEntry_zero, false)
  else
    emit EvAvailableBuildSlots;;
    if bool_decide (EngineState_AvailableBuildSlots state < 1) then
      mret (buildEntry_zero, false)
    else
      emit EvNextTargetToBuild;;
      match NextTargetToBuild state with
      | None => mret (buildEntry_zero, false)
      | Some mt =>
          setBuildsStartedCount (GoInt.add (buildsStartedCount c) 1);;
          let ms := ManifestTarget_State mt in
          let manifest := ManifestTarget_Manifest mt in
          let firstBuild := negb (ManifestState_StartedFirstBuild ms) in
          let buildReason := ManifestTarget_NextBuildReason mt in
          let targets := buildTargets manifest in
          let buildStateSet := buildStateSet manifest targets ms in
          c ← receiver;
          mret ({| entry_name := Manifest_Name manifest;
                   entry_targets := targets;
                   entry_firstBuild := firstBuild;
                   entry_buildReason := buildReason;
                   entry_buildStateSet := buildStateSet;
                   entry_filesChanged :=
                     ManifestState_ConfigFilesThatCausedChange ms
                       ++ BuildStateSet_FilesChanged buildStateSet;
                   entry_spanID := SpanIDForBuildLog (buildsStartedCount c) |}, true)
      end.

Definition needsBuild (state : EngineState) : M (buildEntry * bool) :=
  emit EvRLockState;;
  r ← needsBuildLocked state;
  emit EvRUnlockState;;
  mret r.

Definition DisableForTesting : M unit := fun c =>
  (tt, {| b := b c; buildsStartedCount := buildsStartedCount c; disabledForTesting := true |}, []).

(** ** The build of one entry *)

Record BuildLogActionWriter : Type := {
  writer_manifestName : string;
  writer_spanID : string;
}.

(** [BuildLogActionWriter.Write]: one log action per write, no error. *)
Definition Write (w : BuildLogActionWriter) (level : Level)
    (fields : gmap string string) (p : string) : M (option error) :=
  emit (EvDispatch (LogAction (writer_manifestName w) (writer_spanID w) level fields p));;
  mret None.

(** [Infof] of the logger got from a context whose log handler is [w],
    with the fields given to [WithFields]; the message is the format
    applied to its arguments. *)
Definition Infof (w : BuildLogActionWriter) (fields : gmap string string)
    (message : string) : M unit :=
  Write w InfoLvl fields message;; mret tt.

Definition logBuildEntry (ctx : BuildLogActionWriter) (entry : buildEntry) : M unit :=
  let firstBuild := entry_firstBuild entry in
  let name := entry_name entry in
  let buildReason := entry_buildReason entry in
  let changedFiles := entry_filesChanged entry in
  let l := Infof ctx {[ FieldNameBuildEvent := "0" ]} in
  let delimiter := "•" in
  if firstBuild then
    l ("Initial Build " +:+ delimiter +:+ " " +:+ name)
  else if bool_decide (0 < length changedFiles)%nat then
    let t := if bool_decide (1 < length changedFiles)%nat then "Files" else "File" in
    l (fmt.d (Z.of_nat (length changedFiles)) +:+ " " +:+ t +:+ " Changed: "
       +:+ FormatFileChangeList changedFiles +:+ " " +:+ delimiter +:+ " " +:+ name)
  else
    l (BuildReason_String buildReason +:+ " " +:+ delimiter +:+ " " +:+ name).

(** The loop of [buildAndDeploy]: the error of the first target that does
    not validate. *)
Fixpoint validateAll (targets : list TargetSpec) : option error :=
  match targets with
  | [] => None
  | target :: targets =>
      match Validate target with
      | Some err => Some err
      | None => validateAll targets
      end
  end.

Definition buildAndDeploy (entry : buildEntry) : M (BuildResultSet * option error) :=
  let targets := entry_targets entry in
  match validateAll targets with
  | Some err => mret (∅, Some err)
  | None =>
      c ← receiver;
      emit (EvBuildAndDeploy targets (entry_buildStateSet entry));;
      mret (b c targets (entry_buildStateSet entry))
  end.

(** The body of the goroutine [OnChange] starts for an admitted entry. *)
Definition buildGoroutine (entry : buildEntry) : M unit :=
  let actionWriter := {| writer_manifestName := entry_name entry;
                         writer_spanID := entry_spanID entry |} in
  logBuildEntry actionWriter entry;;
  '(result, err) ← buildAndDeploy entry;
  emit (EvDispatch (BuildCompleteAction (entry_name entry) (entry_spanID entry) result err)).

(** [OnChange], with the reading of the clock as an argument; the
    goroutine it starts is recorded by [EvGo] and runs [buildGoroutine]. *)
Definition OnChange (now : Time) (st : EngineState) : M unit :=
  c ← receiver;
  if disabledForTesting c then mret tt
  else
    '(entry, ok) ← needsBuild st;
    if negb ok then mret tt
    else
      emit (EvDispatch (BuildStartedAction (entry_name entry) now
              (entry_filesChanged entry) (entry_buildReason entry) (entry_spanID entry)));;
      emit (EvGo entry).

End Engine.

(** ** Notions the properties are stated with *)

Section Notions.
Context `{Packages}.

(** A target has a change since the last build: one of its pending changes
    was made with no last build on record or after the last build began. *)
Definition changedSinceLastBuild (ms : ManifestState) (id : TargetID) : Prop :=
  exists file ts,
    BuildStatus_PendingFileChanges (ManifestState_BuildStatus ms id) !! file = Some ts
    /\ (BuildRecord_Empty (ManifestState_LastBuild ms) = true
        \/ BuildRecord_StartTime (ManifestState_LastBuild ms) < ts).

(** The specs of a list that get a build state. *)
Definition stateSpecs (specs : list TargetSpec) : list TargetSpec :=
  filter (fun spec => hasBuildState (Type_ (ID spec)) = true) specs.

(** The build state assembled for one spec. *)
Definition targetBuildState (manifest : Manifest) (ms : ManifestState)
    (spec : TargetSpec) : BuildState :=
  let status := ManifestState_BuildStatus ms (ID spec) in
  withContainers manifest ms spec
    (NewBuildState (BuildStatus_LastSuccessfulResult status)
       (sort.Strings (map_to_list (BuildStatus_PendingFileChanges status)).*1)).

(** The test the inner loop makes on one change time. *)
Definition changeCounts (ms : ManifestState) (ts : Time) : bool :=
  BuildRecord_Empty (ManifestState_LastBuild ms)
  || After ts (BuildRecord_StartTime (ManifestState_LastBuild ms)).

Definition changedb (ms : ManifestState) (id : TargetID) : bool :=
  existsb (changeCounts ms)
    (map_to_list (BuildStatus_PendingFileChanges (ManifestState_BuildStatus ms id))).*2.

(** The map the loop over the specs leaves, taken alone. *)
Definition statesOf (manifest : Manifest) (ms : ManifestState)
    (specs : list TargetSpec) (result : gmap TargetID BuildState)
  : gmap TargetID BuildState :=
  foldl (fun result spec =>
           if hasBuildState (Type_ (ID spec))
           then <[ID spec := targetBuildState manifest ms spec]> result
           else result) result specs.

(** The last spec of a list that gets a build state under the key [id]. *)
Definition lastStateSpec (id : TargetID) (specs : list TargetSpec) : option TargetSpec :=
  last (filter (fun spec => hasBuildState (Type_ (ID spec)) = true /\ ID spec = id) specs).

(** The reading of "saw a change" under which a manifest with no last build
    counts as changed whether or not a change is pending. *)
Definition sawChangeOrNeverBuilt (ms : ManifestState) (id : TargetID) : Prop :=
  (exists file ts,
     BuildStatus_PendingFileChanges (ManifestState_BuildStatus ms id) !! file = Some ts
     /\ BuildRecord_StartTime (ManifestState_LastBuild ms) < ts)
  \/ BuildRecord_Empty (ManifestState_LastBuild ms) = true.

(** The force-rebuild rule under that reading. *)
Definition forceRebuildRuleOrNeverBuilt (manifest : Manifest)
    (specs : list TargetSpec) (ms : ManifestState) : Prop :=
  ManifestState_NeedsRebuildFromCrash ms = false ->
  ((forall spec, spec ∈ stateSpecs specs -> ~ sawChangeOrNeverBuilt ms (ID spec)) ->
   forall id bs, buildStateSet manifest specs ms !! id = Some bs ->
                 BuildState_NeedsForceUpdate bs = true)
  /\ ((exists spec, spec ∈ stateSpecs specs /\ sawChangeOrNeverBuilt ms (ID spec)) ->
      forall id bs, buildStateSet manifest specs ms !! id = Some bs ->
                    BuildState_NeedsForceUpdate bs = false).

End Notions.

Section AdmissionNotions.
Context `{Packages} `{!Store}.

(** The entry [needsBuild] returns for the candidate [mt] when the counter
    stands at [count] after the increment. *)
Definition admittedEntry (count : Z) (mt : ManifestTarget) : buildEntry :=
  let ms := ManifestTarget_State mt in
  let manifest := ManifestTarget_Manifest mt in
  let targets := buildTargets manifest in
  let buildStateSet := buildStateSet manifest targets ms in
  {| entry_name := Manifest_Name manifest;
     entry_targets := targets;
     entry_firstBuild := negb (ManifestState_StartedFirstBuild ms);
     entry_buildReason := ManifestTarget_NextBuildReason mt;
     entry_buildStateSet := buildStateSet;
     entry_filesChanged :=
       ManifestState_ConfigFilesThatCausedChange ms
         ++ BuildStateSet_FilesChanged buildStateSet;
     entry_spanID := SpanIDForBuildLog count |}.

(** The controller with its counter set to [count]. *)
Definition withCount (count : Z) (c : BuildController) : BuildController :=
  {| b := b c; buildsStartedCount := count; disabledForTesting := disabledForTesting c |}.

(** Events that consult the capacity or the selection. *)
Definition consults (e : Event) : Prop :=
  e = EvAvailableBuildSlots \/ e = EvNextTargetToBuild.

(** Events that call the build engine. *)
Definition callsEngine (e : Event) : Prop :=
  exists targets stateSet, e = EvBuildAndDeploy targets stateSet.

(** Events that dispatch a log action. *)
Definition dispatchesLog (e : Event) : Prop :=
  exists name span level fields p, e = EvDispatch (LogAction name span level fields p).

(** Events that dispatch an action, and events that start a goroutine. *)
Definition dispatches (e : Event) : Prop := exists a, e = EvDispatch a.
Definition startsGoroutine (e : Event) : Prop := exists entry, e = EvGo entry.

(** The manifest name and the span an action is tagged with; the
    build-started action is read through its fields [ManifestName] and
    [SpanID]. *)
Definition actionManifestName (a : Action) : string :=
  match a with
  | BuildStartedAction name _ _ _ _ => name
  | BuildCompleteAction name _ _ _ => name
  | LogAction name _ _ _ _ => name
  end.

Definition actionSpanID (a : Action) : string :=
  match a with
  | BuildStartedAction _ _ _ _ span => span
  | BuildCompleteAction _ span _ _ => span
  | LogAction _ span _ _ _ => span
  end.

Definition isBuildComplete (e : Event) : Prop :=
  exists name span result err, e = EvDispatch (BuildCompleteAction name span result err).

(** The three guards of [needsBuild] taken together. *)
Definition guardsPass (state : EngineState) (c : BuildController) : Prop :=
  buildsStartedCount c = EngineState_StartedBuildCount state
  /\ 1 <= EngineState_AvailableBuildSlots state
  /\ is_Some (NextTargetToBuild state).

End AdmissionNotions.

(** ** A small concrete world *)

Module Demo.

(** A target struct: its identity and what [Validate] returns. *)
Record target : Type := { target_id : TargetID; target_invalid : option string }.

#[local] Instance pkgs : Packages := {|
  error := string;
  BuildReason := string;
  BuildReason_zero := "";
  BuildReason_String := fun r => r;
  ImageTarget := target;
  ImageTarget_ID := target_id;
  ImageTarget_Validate := target_invalid;
  DockerComposeTarget := target;
  DockerComposeTarget_ID := target_id;
  DockerComposeTarget_Validate := target_invalid;
  K8sTarget := target;
  K8sTarget_ID := target_id;
  K8sTarget_Validate := target_invalid;
  LocalTarget := target;
  LocalTarget_ID := target_id;
  LocalTarget_Validate := target_invalid;
  BuildResult := option string;
  ContainerInfo := string;
  K8sRuntimeState := (list string * option string)%type;
  DCRuntimeState := list string;
  RunningContainersForTargetForOnePod := fun _ runtime => runtime;
  RunningContainersForDC := fun runtime => runtime;
  FieldNameBuildEvent := "buildEvent";
  FormatFileChangeList := fun files => "[" +:+ String.concat " " files +:+ "]";
|}.

Record engineState : Type := {
  started : Z;
  slots : Z;
  next : option ManifestTarget;
}.

#[local] Instance store : Store := {|
  EngineState := engineState;
  EngineState_StartedBuildCount := started;
  EngineState_AvailableBuildSlots := slots;
  NextTargetToBuild := next;
  BuildStateSet_FilesChanged := fun set =>
    sort.Strings (remove_dups (concat (BuildState_FilesChanged <$> (map_to_list set).*2)));
|}.

Definition zeroTarget : target :=
  {| target_id := mkTargetID (TargetTypeOther "") ""; target_invalid := None |}.

Definition image : target :=
  {| target_id := mkTargetID TargetTypeImage "myapp-image"; target_invalid := None |}.
Definition badImage : target :=
  {| target_id := mkTargetID TargetTypeImage "sidecar-image";
     target_invalid := Some "image target has no build details" |}.
Definition k8s : target :=
  {| target_id := mkTargetID TargetTypeK8s "myapp"; target_invalid := None |}.
Definition badK8s : target :=
  {| target_id := mkTargetID TargetTypeK8s "myapp";
     target_invalid := Some "k8s target has no YAML" |}.

(** The manifest [myapp]: one image deployed to Kubernetes. *)
Definition myapp : Manifest :=
  {| Manifest_Name := "myapp";
     Manifest_ImageTargets := [image];
     Manifest_IsDC := false;
     Manifest_IsK8s := true;
     Manifest_IsLocal := false;
     Manifest_DockerComposeTarget := zeroTarget;
     Manifest_K8sTarget := k8s;
     Manifest_LocalTarget := zeroTarget |}.

(** Two images of which the second does not validate, and a deploy
    target that does not validate either. *)
Definition broken : Manifest :=
  {| Manifest_Name := "broken";
     Manifest_ImageTargets := [image; badImage];
     Manifest_IsDC := false;
     Manifest_IsK8s := true;
     Manifest_IsLocal := false;
     Manifest_DockerComposeTarget := zeroTarget;
     Manifest_K8sTarget := badK8s;
     Manifest_LocalTarget := zeroTarget |}.

Definition noStatus : BuildStatus :=
  {| BuildStatus_PendingFileChanges := ∅; BuildStatus_LastSuccessfulResult := None |}.

(** Never built: no build on record, nothing pending. *)
Definition neverBuilt : ManifestState :=
  {| ManifestState_NeedsRebuildFromCrash := false;
     ManifestState_ConfigFilesThatCausedChange := [];
     ManifestState_StartedFirstBuild := false;
     ManifestState_LastBuild := {| BuildRecord_StartTime := 0; BuildRecord_Empty := true |};
     ManifestState_BuildStatus := fun _ => noStatus;
     ManifestState_K8sRuntimeState := ([], None);
     ManifestState_DCRuntimeState := [] |}.

(** Built at time 100; two files of the image changed afterwards. *)
Definition edited : ManifestState :=
  {| ManifestState_NeedsRebuildFromCrash := false;
     ManifestState_ConfigFilesThatCausedChange := [];
     ManifestState_StartedFirstBuild := true;
     ManifestState_LastBuild := {| BuildRecord_StartTime := 100; BuildRecord_Empty := false |};
     ManifestState_BuildStatus := fun id =>
       if decide (id = target_id image)
       then {| BuildStatus_PendingFileChanges := <["z.go" := 101]> (<["a.go" := 102]> ∅);
               BuildStatus_LastSuccessfulResult := Some "myapp-image:tilt-1" |}
       else noStatus;
     ManifestState_K8sRuntimeState := (["container-1"], None);
     ManifestState_DCRuntimeState := [] |}.

(** Built at time 100; nothing changed since. *)
Definition idle : ManifestState :=
  {| ManifestState_NeedsRebuildFromCrash := false;
     ManifestState_ConfigFilesThatCausedChange := [];
     ManifestState_StartedFirstBuild := true;
     ManifestState_LastBuild := {| BuildRecord_StartTime := 100; BuildRecord_Empty := false |};
     ManifestState_BuildStatus := fun _ =>
       {| BuildStatus_PendingFileChanges := ∅;
          BuildStatus_LastSuccessfulResult := Some "myapp-image:tilt-1" |};
     ManifestState_K8sRuntimeState := (["container-1"], None);
     ManifestState_DCRuntimeState := [] |}.

(** Built at time 100; the pod crashed, nothing changed. *)
Definition crashed : ManifestState :=
  {| ManifestState_NeedsRebuildFromCrash := true;
     ManifestState_ConfigFilesThatCausedChange := [];
     ManifestState_StartedFirstBuild := true;
     ManifestState_LastBuild := {| BuildRecord_StartTime := 100; BuildRecord_Empty := false |};
     ManifestState_BuildStatus := fun _ =>
       {| BuildStatus_PendingFileChanges := ∅;
          BuildStatus_LastSuccessfulResult := Some "myapp-image:tilt-1" |};
     ManifestState_K8sRuntimeState := (["container-1"], None);
     ManifestState_DCRuntimeState := [] |}.

(** The states assembled for the image of [myapp]. *)
Definition imageID : TargetID := mkTargetID TargetTypeImage "myapp-image".
Definition imageSpec : TargetSpec := ImageTargetSpec image.

Definition editedImageState : BuildState :=
  {| BuildState_LastSuccessfulResult := Some "myapp-image:tilt-1";
     BuildState_FilesChanged := ["a.go"; "z.go"];
     BuildState_RunningContainers := ["container-1"];
     BuildState_RunningContainerError := None;
     BuildState_NeedsForceUpdate := false |}.

Definition idleImageState : BuildState :=
  {| BuildState_LastSuccessfulResult := Some "myapp-image:tilt-1";
     BuildState_FilesChanged := [];
     BuildState_RunningContainers := ["container-1"];
     BuildState_RunningContainerError := None;
     BuildState_NeedsForceUpdate := true |}.

Definition neverBuiltImageState : BuildState :=
  {| BuildState_LastSuccessfulResult := None;
     BuildState_FilesChanged := [];
     BuildState_RunningContainers := [];
     BuildState_RunningContainerError := None;
     BuildState_NeedsForceUpdate := true |}.

Definition crashedImageState : BuildState :=
  {| BuildState_LastSuccessfulResult := Some "myapp-image:tilt-1";
     BuildState_FilesChanged := [];
     BuildState_RunningContainers := [];
     BuildState_RunningContainerError := None;
     BuildState_NeedsForceUpdate := false |}.

Definition candidate (manifest : Manifest) (ms : ManifestState) (reason : string)
  : ManifestTarget :=
  {| ManifestTarget_Manifest := manifest;
     ManifestTarget_State := ms;
     ManifestTarget_NextBuildReason := reason |}.

(** An engine that builds nothing and reports no error. *)
Definition engine : BuildAndDeployer := fun _ _ => (∅, None).

Definition controller (count : Z) : BuildController :=
  {| b := engine; buildsStartedCount := count; disabledForTesting := false |}.

(** The store as it stands after [started] builds have been recorded. *)
Definition storeState (started slots : Z) (next : option ManifestTarget) : engineState :=
  {| started := started; slots := slots; next := next |}.

Definition imageK8sTargets : list TargetSpec := [ImageTargetSpec image; K8sTargetSpec k8s].

Definition brokenEntry : buildEntry :=
  admittedEntry 1 (candidate broken neverBuilt "Initial Build").

Definition firstEntry : buildEntry :=
  admittedEntry 1 (candidate myapp neverBuilt "Initial Build").

Definition manualEntry : buildEntry :=
  admittedEntry 2 (candidate myapp idle "triggered manually").

Definition editedEntry : buildEntry :=
  admittedEntry 2 (candidate myapp edited "Changed Files").

Definition buildEvent : gmap string string := {[ "buildEvent" := "0" ]}.

(** Built at time 100, one file edited since; the lookup of the pod's
    containers fails. *)
Definition podLookupFails : ManifestState :=
  {| ManifestState_NeedsRebuildFromCrash := false;
     ManifestState_ConfigFilesThatCausedChange := ["Tiltfile"];
     ManifestState_StartedFirstBuild := true;
     ManifestState_LastBuild := {| BuildRecord_StartTime := 100; BuildRecord_Empty := false |};
     ManifestState_BuildStatus := fun id =>
       if decide (id = target_id image)
       then {| BuildStatus_PendingFileChanges := <["main.go" := 150]> ∅;
               BuildStatus_LastSuccessfulResult := Some "myapp-image:tilt-1" |}
       else noStatus;
     ManifestState_K8sRuntimeState := ([], Some "more than one pod");
     ManifestState_DCRuntimeState := [] |}.

Definition podLookupFailsImageState : BuildState :=
  {| BuildState_LastSuccessfulResult := Some "myapp-image:tilt-1";
     BuildState_FilesChanged := ["main.go"];
     BuildState_RunningContainers := [];
     BuildState_RunningContainerError := Some "more than one pod";
     BuildState_NeedsForceUpdate := false |}.

(** A local target of the same manifest, and a spec list in which the
    image occurs twice around targets that get no state or another key. *)
Definition localTarget : target :=
  {| target_id := mkTargetID TargetTypeLocal "myapp-local"; target_invalid := None |}.

Definition mixedSpecs : list TargetSpec :=
  [ImageTargetSpec image; K8sTargetSpec k8s; LocalTargetSpec localTarget; ImageTargetSpec image].

(** An engine that fails every build. *)
Definition failingEngine : BuildAndDeployer := fun _ _ => (∅, Some "build failed").

Definition failingController (count : Z) : BuildController :=
  {| b := failingEngine; buildsStartedCount := count; disabledForTesting := false |}.

Definition firstCandidate : ManifestTarget := candidate myapp neverBuilt "Initial Build".

Definition localID : TargetID := mkTargetID TargetTypeLocal "myapp-local".

Definition idleLocalState : BuildState :=
  {| BuildState_LastSuccessfulResult := Some "myapp-image:tilt-1";
     BuildState_FilesChanged := [];
     BuildState_RunningContainers := [];
     BuildState_RunningContainerError := None;
     BuildState_NeedsForceUpdate := true |}.

(** The manifest [web]: one image run by docker-compose, built at time
    100, one file edited since, one container up. *)
Definition composeTarget : target :=
  {| target_id := mkTargetID TargetTypeDockerCompose "web"; target_invalid := None |}.

Definition web : Manifest :=
  {| Manifest_Name := "web";
     Manifest_ImageTargets := [image];
     Manifest_IsDC := true;
     Manifest_IsK8s := false;
     Manifest_IsLocal := false;
     Manifest_DockerComposeTarget := composeTarget;
     Manifest_K8sTarget := zeroTarget;
     Manifest_LocalTarget := zeroTarget |}.

Definition webTargets : list TargetSpec :=
  [ImageTargetSpec image; DockerComposeTargetSpec composeTarget].

Definition webRunning : ManifestState :=
  {| ManifestState_NeedsRebuildFromCrash := false;
     ManifestState_ConfigFilesThatCausedChange := [];
     ManifestState_StartedFirstBuild := true;
     ManifestState_LastBuild := {| BuildRecord_StartTime := 100; BuildRecord_Empty := false |};
     ManifestState_BuildStatus := fun id =>
       if decide (id = target_id image)
       then {| BuildStatus_PendingFileChanges := <["main.go" := 150]> ∅;
               BuildStatus_LastSuccessfulResult := Some "myapp-image:tilt-1" |}
       else noStatus;
     ManifestState_K8sRuntimeState := ([], None);
     ManifestState_DCRuntimeState := ["web-1"] |}.

Definition webImageState : BuildState :=
  {| BuildState_LastSuccessfulResult := Some "myapp-image:tilt-1";
     BuildState_FilesChanged := ["main.go"];
     BuildState_RunningContainers := ["web-1"];
     BuildState_RunningContainerError := None;
     BuildState_NeedsForceUpdate := false |}.

(** What the first call of [OnChange] leaves behind at time 1000. *)
Definition firstOnChangeTrace : list Event :=
  [EvRLockState; EvAvailableBuildSlots; EvNextTargetToBuild; EvRUnlockState;
   EvDispatch (BuildStartedAction "myapp" 1000 [] "Initial Build" "build:1");
   EvGo firstEntry].

Definition editedPending : gmap string Time := <["z.go" := 101]> (<["a.go" := 102]> ∅).

End Demo.

(** * Properties *)

Module GoIntFacts.
Import GoInt.
Lemma wrap_inRange z : inRange (wrap z).
Proof.
  unfold inRange, wrap, MinInt, MaxInt, size.
  pose proof (Z.mod_pos_bound (z - - 2 ^ (64 - 1)) (2 ^ 64) ltac:(lia)).
  change (2 ^ 64) with (2 * 2 ^ (64 - 1)) in *. lia.
Qed.

Lemma wrap_id z : inRange z -> wrap z = z.
Proof.
  unfold inRange, wrap, MinInt, MaxInt, size. intros Hz.
  rewrite Z.mod_small; [lia|].
  change (2 ^ 64) with (2 * 2 ^ (64 - 1)). lia.
Qed.

Lemma add_no_overflow x y : inRange (x + y) -> add x y = x + y.
Proof. apply wrap_id. Qed.
End GoIntFacts.

Example fmt_d_42 : fmt.d 42 = "42"%string.
Proof. reflexivity. Qed.
Example fmt_d_0 : fmt.d 0 = "0"%string.
Proof. reflexivity. Qed.
Example fmt_d_neg : fmt.d (-7) = "-7"%string.
Proof. reflexivity. Qed.
Example sort_demo :
  sort.Strings ["z.go"; "a.go"; "m/b.go"]%string = ["a.go"; "m/b.go"; "z.go"]%string.
Proof. vm_compute. reflexivity. Qed.

(** ** Go's string order *)

Lemma ascii_compare_refl a : Ascii.compare a a = Eq.
Proof. unfold Ascii.compare. apply N.compare_refl. Qed.

Lemma ascii_compare_trans a1 a2 a3 c :
  Ascii.compare a1 a2 = c -> Ascii.compare a2 a3 = c -> Ascii.compare a1 a3 = c.
Proof.
  unfold Ascii.compare. destruct c; intros H1 H2.
  - rewrite N.compare_eq_iff in *. congruence.
  - rewrite N.compare_lt_iff in *. lia.
  - rewrite N.compare_gt_iff in *. lia.
Qed.

Lemma string_leb_trans s1 s2 s3 :
  String.leb s1 s2 = true -> String.leb s2 s3 = true -> String.leb s1 s3 = true.
Proof.
  unfold String.leb. revert s2 s3.
  induction s1 as [|a1 s1 IH]; intros [|a2 s2] [|a3 s3]; simpl; try done.
  destruct (Ascii.compare a1 a2) eqn:E12, (Ascii.compare a2 a3) eqn:E23;
    try done; intros H12 H23.
  - rewrite (ascii_compare_trans _ _ _ _ E12 E23). by apply (IH s2).
  - apply Ascii.compare_eq_iff in E12 as ->. by rewrite E23.
  - apply Ascii.compare_eq_iff in E23 as <-. by rewrite E12.
  - by rewrite (ascii_compare_trans _ _ _ _ E12 E23).
Qed.

#[local] Instance sort_le_total : Total sort.le.
Proof. intros s1 s2. apply String.leb_total. Qed.

#[local] Instance sort_le_trans : Transitive sort.le.
Proof. intros s1 s2 s3. apply string_leb_trans. Qed.

#[local] Instance sort_le_antisym : AntiSymm (=) sort.le.
Proof. intros s1 s2. apply String.leb_antisym. Qed.

Lemma sort_Strings_sorted l : StronglySorted sort.le (sort.Strings l).
Proof. apply StronglySorted_merge_sort; apply _. Qed.

Lemma sort_Strings_perm l : sort.Strings l ≡ₚ l.
Proof. apply merge_sort_Permutation. Qed.

(** Sorting does not depend on the order in which a Go map is ranged over. *)
Lemma sort_Strings_order_irrelevant l1 l2 :
  l1 ≡ₚ l2 -> sort.Strings l1 = sort.Strings l2.
Proof.
  intros Hp. apply (StronglySorted_unique sort.le); try apply sort_Strings_sorted.
  by rewrite !sort_Strings_perm.
Qed.

(** ** The assembly of build states *)

Section Assemble.
Context `{Packages}.
Implicit Types (manifest : Manifest) (ms : ManifestState) (spec : TargetSpec)
  (specs : list TargetSpec) (result : gmap TargetID BuildState) (id : TargetID).

Lemma pendingFileChangesLoop_acc ms pending filesChanged any :
  foldl (pendingFileChangesStep ms) (filesChanged, any) pending
  = (filesChanged ++ pending.*1, any || existsb (changeCounts ms) pending.*2).
Proof.
  revert filesChanged any.
  induction pending as [|[file ts] pending IH]; intros filesChanged any; simpl.
  - by rewrite app_nil_r, orb_false_r.
  - rewrite IH, <- app_assoc. simpl. f_equal. unfold changeCounts.
    by destruct (BuildRecord_Empty _ || After _ _), any.
Qed.

Lemma pendingFileChangesLoop_eq ms pending any :
  pendingFileChangesLoop ms pending any
  = (pending.*1, any || existsb (changeCounts ms) pending.*2).
Proof. unfold pendingFileChangesLoop. by rewrite pendingFileChangesLoop_acc. Qed.

(** The files and the flag do not depend on the order of the range loop,
    the files once sorted. *)
Lemma pendingFileChangesLoop_order_irrelevant ms pending1 pending2 any :
  pending1 ≡ₚ pending2 ->
  sort.Strings (pendingFileChangesLoop ms pending1 any).1
    = sort.Strings (pendingFileChangesLoop ms pending2 any).1
  /\ (pendingFileChangesLoop ms pending1 any).2
     = (pendingFileChangesLoop ms pending2 any).2.
Proof.
  intros Hp. rewrite !pendingFileChangesLoop_eq. simpl. split.
  - apply sort_Strings_order_irrelevant. by rewrite Hp.
  - f_equal. apply eq_true_iff_eq. rewrite !existsb_exists.
    setoid_rewrite <- list_elem_of_In. by setoid_rewrite Hp.
Qed.

Lemma changedb_true ms id :
  changedb ms id = true <-> changedSinceLastBuild ms id.
Proof.
  unfold changedb, changedSinceLastBuild. rewrite existsb_exists. split.
  - intros (ts & Hin & Hts). apply list_elem_of_In, list_elem_of_fmap in Hin.
    destruct Hin as ([file ts'] & -> & Hin). apply elem_of_map_to_list in Hin.
    exists file, ts'. split; [done|]. unfold changeCounts, After in Hts.
    apply orb_true_iff in Hts as [Hts|Hts]; [by left|right].
    by apply bool_decide_eq_true in Hts.
  - intros (file & ts & Hl & Hts). exists ts. split.
    + apply list_elem_of_In, list_elem_of_fmap. exists (file, ts).
      split; [done|]. by apply elem_of_map_to_list.
    + unfold changeCounts, After. apply orb_true_iff.
      destruct Hts as [Hts|Hts]; [by left|right]. by apply bool_decide_eq_true.
Qed.

Lemma buildStateSetStep_eq manifest ms result any spec :
  buildStateSetStep manifest ms (result, any) spec
  = if hasBuildState (Type_ (ID spec))
    then (<[ID spec := targetBuildState manifest ms spec]> result,
          any || changedb ms (ID spec))
    else (result, any).
Proof.
  unfold buildStateSetStep. destruct (hasBuildState _); simpl; [|done].
  by rewrite pendingFileChangesLoop_eq.
Qed.

Lemma buildStateSet_loop manifest ms specs result any :
  foldl (buildStateSetStep manifest ms) (result, any) specs
  = (statesOf manifest ms specs result,
     any || existsb (fun spec => hasBuildState (Type_ (ID spec)) && changedb ms (ID spec)) specs).
Proof.
  revert result any. unfold statesOf.
  induction specs as [|spec specs IH]; intros result any; cbn [foldl existsb].
  - by rewrite orb_false_r.
  - rewrite buildStateSetStep_eq.
    destruct (hasBuildState _); rewrite IH; [|done].
    by rewrite orb_assoc.
Qed.

Lemma buildStateSet_eq manifest specs ms :
  buildStateSet manifest specs ms
  = let result := statesOf manifest ms specs ∅ in
    if negb (ManifestState_NeedsRebuildFromCrash ms)
       && negb (existsb (fun spec => hasBuildState (Type_ (ID spec)) && changedb ms (ID spec)) specs)
    then WithNeedsForceUpdate true <$> result else result.
Proof. unfold buildStateSet. by rewrite buildStateSet_loop. Qed.

Lemma statesOf_dom manifest ms specs result :
  dom (statesOf manifest ms specs result)
  = dom result ∪ list_to_set (ID <$> stateSpecs specs).
Proof.
  revert result. unfold statesOf, stateSpecs.
  induction specs as [|spec specs IH]; intros result; simpl.
  - by rewrite (right_id_L ∅ (∪)).
  - rewrite IH. destruct (hasBuildState (Type_ (ID spec))) eqn:E.
    + rewrite filter_cons_True by done.
      rewrite dom_insert_L, fmap_cons, list_to_set_cons.
      by rewrite (comm_L (∪) {[ID spec]} (dom result)), (assoc_L (∪)).
    + rewrite filter_cons_False by (by rewrite E). done.
Qed.

(** A property of every state built for a spec of the list, and of the
    states the map started with, holds of every state in the final map. *)
Lemma statesOf_Forall (P : BuildState -> Prop) manifest ms specs result :
  (forall spec, spec ∈ stateSpecs specs -> P (targetBuildState manifest ms spec)) ->
  map_Forall (fun _ => P) result ->
  map_Forall (fun _ => P) (statesOf manifest ms specs result).
Proof.
  revert result. unfold statesOf, stateSpecs.
  induction specs as [|spec specs IH]; intros result Hspecs Hres; simpl; [done|].
  destruct (hasBuildState (Type_ (ID spec))) eqn:E.
  - rewrite filter_cons_True in Hspecs by done. apply IH.
    + intros s Hs. apply Hspecs. by right.
    + apply map_Forall_insert_2; [|done]. apply Hspecs. by left.
  - rewrite filter_cons_False in Hspecs by (by rewrite E). by apply IH.
Qed.

Lemma anyChanged_true ms specs :
  existsb (fun spec => hasBuildState (Type_ (ID spec)) && changedb ms (ID spec)) specs = true
  <-> exists spec, spec ∈ stateSpecs specs /\ changedSinceLastBuild ms (ID spec).
Proof.
  rewrite existsb_exists. unfold stateSpecs. split.
  - intros (spec & Hin & Hb). apply andb_true_iff in Hb as [Hty Hch].
    exists spec. split; [|by apply changedb_true].
    apply list_elem_of_filter. split; [done|]. by apply list_elem_of_In.
  - intros (spec & Hin & Hch). apply list_elem_of_filter in Hin as [Hty Hin].
    exists spec. split; [by apply list_elem_of_In|].
    apply andb_true_iff. split; [done|]. by apply changedb_true.
Qed.

Lemma withContainers_FilesChanged manifest ms spec bs :
  BuildState_FilesChanged (withContainers manifest ms spec bs) = BuildState_FilesChanged bs.
Proof.
  unfold withContainers. destruct (negb _); [|done]. destruct spec; try done.
  destruct (Manifest_IsK8s manifest), (Manifest_IsDC manifest); simpl; try done;
    destruct (RunningContainersForTargetForOnePod _ _) as [cInfos [err|]]; done.
Qed.

Lemma withContainers_NeedsForceUpdate manifest ms spec bs :
  BuildState_NeedsForceUpdate (withContainers manifest ms spec bs)
  = BuildState_NeedsForceUpdate bs.
Proof.
  unfold withContainers. destruct (negb _); [|done]. destruct spec; try done.
  destruct (Manifest_IsK8s manifest), (Manifest_IsDC manifest); simpl; try done;
    destruct (RunningContainersForTargetForOnePod _ _) as [cInfos [err|]]; done.
Qed.

Lemma withContainers_crash manifest ms spec bs :
  ManifestState_NeedsRebuildFromCrash ms = true ->
  withContainers manifest ms spec bs = bs.
Proof. unfold withContainers. by intros ->. Qed.

(** C6. The keys of the assembled set are exactly the identities of the
    specs of the list whose type is image, docker-compose or local; a spec
    of another type adds no key, and no key occurs twice. *)
Theorem buildStateSet_keys manifest specs ms :
  (forall id,
     id ∈ dom (buildStateSet manifest specs ms)
     <-> exists spec, spec ∈ specs /\ ID spec = id
           /\ (Type_ id = TargetTypeImage \/ Type_ id = TargetTypeDockerCompose
               \/ Type_ id = TargetTypeLocal))
  /\ NoDup (map_to_list (buildStateSet manifest specs ms)).*1.
Proof.
  split; [|apply NoDup_fst_map_to_list].
  intros id. rewrite buildStateSet_eq. cbv zeta.
  assert (dom (statesOf manifest ms specs ∅) = list_to_set (ID <$> stateSpecs specs)) as Hdom.
  { rewrite statesOf_dom, dom_empty_L. apply (left_id_L ∅ (∪)). }
  assert (forall ty, hasBuildState ty = true
            <-> ty = TargetTypeImage \/ ty = TargetTypeDockerCompose \/ ty = TargetTypeLocal)
    as Hty.
  { intros ty. unfold hasBuildState. destruct ty; simpl; split; intros Hx;
      try done; try tauto; destruct Hx as [Hx|[Hx|Hx]]; done. }
  assert (id ∈ dom (statesOf manifest ms specs ∅)
          <-> exists spec, spec ∈ specs /\ ID spec = id
                /\ (Type_ id = TargetTypeImage \/ Type_ id = TargetTypeDockerCompose
                    \/ Type_ id = TargetTypeLocal)) as Hmem.
  { rewrite Hdom, elem_of_list_to_set, list_elem_of_fmap. unfold stateSpecs. split.
    - intros (spec & -> & Hin). apply list_elem_of_filter in Hin as [Hb Hin].
      exists spec. split; [done|]. split; [done|]. by apply Hty.
    - intros (spec & Hin & <- & Ht). exists spec. split; [done|].
      apply list_elem_of_filter. split; [|done]. by apply Hty. }
  destruct (_ && _); [|done]. by rewrite dom_fmap_L.
Qed.

(** C7. In every state of an assembled set the changed files are in
    ascending byte-wise order and no file occurs twice. *)
Theorem buildStateSet_filesChanged_sorted manifest specs ms id bs :
  buildStateSet manifest specs ms !! id = Some bs ->
  StronglySorted sort.le (BuildState_FilesChanged bs)
  /\ NoDup (BuildState_FilesChanged bs).
Proof.
  rewrite buildStateSet_eq. cbv zeta. intros Hbs.
  pose (P := fun bs : BuildState =>
               StronglySorted sort.le (BuildState_FilesChanged bs)
               /\ NoDup (BuildState_FilesChanged bs)).
  assert (map_Forall (fun _ => P) (statesOf manifest ms specs ∅)) as HP.
  { apply statesOf_Forall; [|apply map_Forall_empty].
    intros spec _. unfold P, targetBuildState.
    rewrite withContainers_FilesChanged. simpl. split.
    - apply sort_Strings_sorted.
    - rewrite sort_Strings_perm. apply NoDup_fst_map_to_list. }
  destruct (_ && _).
  - rewrite lookup_fmap in Hbs.
    destruct (statesOf manifest ms specs ∅ !! id) as [bs0|] eqn:E; [|done].
    simpl in Hbs. injection Hbs as <-. apply (HP _ _ E).
  - apply (HP _ _ Hbs).
Qed.

(** C3. For a manifest flagged as needing a rebuild after a crash, no state
    of the assembled set carries running containers or a running-container
    error, and none is marked for a forced rebuild, whatever files changed
    or did not. *)
Theorem buildStateSet_crash manifest specs ms id bs :
  ManifestState_NeedsRebuildFromCrash ms = true ->
  buildStateSet manifest specs ms !! id = Some bs ->
  BuildState_RunningContainers bs = []
  /\ BuildState_RunningContainerError bs = None
  /\ BuildState_NeedsForceUpdate bs = false.
Proof.
  intros Hcrash. rewrite buildStateSet_eq. cbv zeta. rewrite Hcrash. simpl.
  intros Hbs.
  pose (P := fun bs : BuildState =>
               BuildState_RunningContainers bs = []
               /\ BuildState_RunningContainerError bs = None
               /\ BuildState_NeedsForceUpdate bs = false).
  assert (map_Forall (fun _ => P) (statesOf manifest ms specs ∅)) as HP.
  { apply statesOf_Forall; [|apply map_Forall_empty].
    intros spec _. unfold P, targetBuildState.
    by rewrite withContainers_crash. }
  apply (HP _ _ Hbs).
Qed.

(** C2, as the code has it. For a manifest not flagged as needing a rebuild
    after a crash: when no spec that gets a state has a pending change made
    with no last build on record or after the last build began, every state
    of the assembled set is marked for a forced rebuild; when some such spec
    has such a pending change, no state is. *)
Theorem buildStateSet_force_rebuild manifest specs ms :
  ManifestState_NeedsRebuildFromCrash ms = false ->
  ((forall spec, spec ∈ stateSpecs specs -> ~ changedSinceLastBuild ms (ID spec)) ->
   forall id bs, buildStateSet manifest specs ms !! id = Some bs ->
                 BuildState_NeedsForceUpdate bs = true)
  /\ ((exists spec, spec ∈ stateSpecs specs /\ changedSinceLastBuild ms (ID spec)) ->
      forall id bs, buildStateSet manifest specs ms !! id = Some bs ->
                    BuildState_NeedsForceUpdate bs = false).
Proof.
  intros Hcrash. rewrite buildStateSet_eq. cbv zeta. rewrite Hcrash. simpl.
  destruct (existsb _ specs) eqn:Hany; simpl.
  - apply anyChanged_true in Hany. split.
    + intros Hnone. destruct Hany as (spec & Hin & Hch). by destruct (Hnone spec Hin).
    + intros _ id bs Hbs.
      assert (map_Forall (fun _ bs => BuildState_NeedsForceUpdate bs = false)
                (statesOf manifest ms specs ∅)) as HP.
      { apply statesOf_Forall; [|apply map_Forall_empty].
        intros spec _. unfold targetBuildState.
        by rewrite withContainers_NeedsForceUpdate. }
      apply (HP _ _ Hbs).
  - split.
    + intros _ id bs Hbs. rewrite lookup_fmap in Hbs.
      destruct (statesOf manifest ms specs ∅ !! id) as [bs0|]; [|done].
      simpl in Hbs. by injection Hbs as <-.
    + intros Hsome. apply anyChanged_true in Hsome. congruence.
Qed.

End Assemble.

Section AssembleExamples.
#[local] Existing Instance Demo.pkgs.
#[local] Existing Instance Demo.store.

Example demo_state_edited :
  buildStateSet Demo.myapp (buildTargets Demo.myapp) Demo.edited !! Demo.imageID
  = Some Demo.editedImageState.
Proof. vm_compute. reflexivity. Qed.

Example demo_state_idle :
  buildStateSet Demo.myapp (buildTargets Demo.myapp) Demo.idle !! Demo.imageID
  = Some Demo.idleImageState.
Proof. vm_compute. reflexivity. Qed.

Example demo_state_neverBuilt :
  buildStateSet Demo.myapp (buildTargets Demo.myapp) Demo.neverBuilt !! Demo.imageID
  = Some Demo.neverBuiltImageState.
Proof. vm_compute. reflexivity. Qed.

Example demo_state_crashed :
  buildStateSet Demo.myapp (buildTargets Demo.myapp) Demo.crashed !! Demo.imageID
  = Some Demo.crashedImageState.
Proof. vm_compute. reflexivity. Qed.

(** The sorted files of the edited image, through C7. *)
Lemma buildStateSet_filesChanged_sorted_witness :
  StronglySorted sort.le ["a.go"; "z.go"]%string /\ NoDup ["a.go"; "z.go"]%string.
Proof.
  apply (buildStateSet_filesChanged_sorted Demo.myapp (buildTargets Demo.myapp)
           Demo.edited Demo.imageID Demo.editedImageState).
  vm_compute. reflexivity.
Defined.

(** The state of the crashed manifest's image, through C3. *)
Lemma buildStateSet_crash_witness :
  BuildState_RunningContainers Demo.crashedImageState = []
  /\ BuildState_RunningContainerError Demo.crashedImageState = None
  /\ BuildState_NeedsForceUpdate Demo.crashedImageState = false.
Proof.
  apply (buildStateSet_crash Demo.myapp (buildTargets Demo.myapp) Demo.crashed
           Demo.imageID Demo.crashedImageState).
  - reflexivity.
  - vm_compute. reflexivity.
Defined.

(** A manifest never built and with nothing pending: its image counts as
    changed under the reading of [forceRebuildRuleOrNeverBuilt], and its
    state is marked for a forced rebuild all the same. *)
Lemma forceRebuildRuleOrNeverBuilt_fails :
  ~ forceRebuildRuleOrNeverBuilt Demo.myapp (buildTargets Demo.myapp) Demo.neverBuilt.
Proof.
  intros Hrule. destruct (Hrule eq_refl) as [_ Hsome].
  assert (BuildState_NeedsForceUpdate Demo.neverBuiltImageState = false) as Habs;
    [|discriminate Habs].
  apply Hsome with (id := Demo.imageID).
  - exists Demo.imageSpec. split; [vm_compute; left | right; reflexivity].
  - vm_compute. reflexivity.
Qed.

(** The idle manifest is rebuilt by force and the edited one is not,
    through C2. *)
Lemma buildStateSet_force_rebuild_witness :
  (forall id bs,
     buildStateSet Demo.myapp (buildTargets Demo.myapp) Demo.idle !! id = Some bs ->
     BuildState_NeedsForceUpdate bs = true)
  /\ (forall id bs,
        buildStateSet Demo.myapp (buildTargets Demo.myapp) Demo.edited !! id = Some bs ->
        BuildState_NeedsForceUpdate bs = false).
Proof.
  split.
  - apply (buildStateSet_force_rebuild Demo.myapp (buildTargets Demo.myapp) Demo.idle
             eq_refl).
    intros spec _ (file & ts & Hl & _). simpl in Hl. by rewrite lookup_empty in Hl.
  - apply (buildStateSet_force_rebuild Demo.myapp (buildTargets Demo.myapp) Demo.edited
             eq_refl).
    exists Demo.imageSpec. split; [vm_compute; left|].
    exists "z.go"%string, 101. split; [vm_compute; reflexivity|]. right. simpl. lia.
Defined.

End AssembleExamples.

(** ** The targets of a manifest *)

Section Targets.
Context `{Packages}.

Lemma imageTargets_loop (result : list TargetSpec) (iTargets : list ImageTarget) :
  foldl (fun result iTarget => result ++ [ImageTargetSpec iTarget]) result iTargets
  = result ++ (ImageTargetSpec <$> iTargets).
Proof.
  revert result. induction iTargets as [|iTarget iTargets IH]; intros result; simpl.
  - by rewrite app_nil_r.
  - by rewrite IH, <- app_assoc.
Qed.

(** C10. The targets of a manifest are its image targets in order, followed
    by at most one deploy target: the docker-compose target when the
    manifest is a docker-compose one, else the Kubernetes target when it is
    a Kubernetes one, else the local target when it is a local one, and
    nothing when it is none of the three. *)
Theorem buildTargets_resolved (manifest : Manifest) :
  exists deploy,
    buildTargets manifest = (ImageTargetSpec <$> Manifest_ImageTargets manifest) ++ deploy
    /\ (length deploy <= 1)%nat
    /\ (Manifest_IsDC manifest = true ->
        deploy = [DockerComposeTargetSpec (Manifest_DockerComposeTarget manifest)])
    /\ (Manifest_IsDC manifest = false -> Manifest_IsK8s manifest = true ->
        deploy = [K8sTargetSpec (Manifest_K8sTarget manifest)])
    /\ (Manifest_IsDC manifest = false -> Manifest_IsK8s manifest = false ->
        Manifest_IsLocal manifest = true ->
        deploy = [LocalTargetSpec (Manifest_LocalTarget manifest)])
    /\ (Manifest_IsDC manifest = false -> Manifest_IsK8s manifest = false ->
        Manifest_IsLocal manifest = false ->
        deploy = []).
Proof.
  unfold buildTargets. rewrite imageTargets_loop, app_nil_l.
  destruct (Manifest_IsDC manifest);
    [exists [DockerComposeTargetSpec (Manifest_DockerComposeTarget manifest)]
    |destruct (Manifest_IsK8s manifest);
     [exists [K8sTargetSpec (Manifest_K8sTarget manifest)]
     |destruct (Manifest_IsLocal manifest);
      [exists [LocalTargetSpec (Manifest_LocalTarget manifest)]
      |exists []; rewrite app_nil_r]]];
    simpl; repeat split; intros; (done || lia).
Qed.

End Targets.

Section TargetsExamples.
#[local] Existing Instance Demo.pkgs.

(** The image of [myapp] and then its Kubernetes target, through C10. *)
Lemma buildTargets_resolved_witness :
  buildTargets Demo.myapp = Demo.imageK8sTargets.
Proof.
  destruct (buildTargets_resolved Demo.myapp) as (deploy & -> & _ & _ & Hk8s & _).
  rewrite (Hk8s eq_refl eq_refl). reflexivity.
Defined.

End TargetsExamples.

(** ** Admission *)

Section Admission.
Context `{Packages} `{!Store}.
Implicit Types (c : BuildController) (state : EngineState) (entry : buildEntry).

(** [needsBuild] by cases: the three ways to decline and the admission. *)
Lemma needsBuild_cases state c :
  needsBuild state c =
  if bool_decide (buildsStartedCount c <> EngineState_StartedBuildCount state) then
    ((buildEntry_zero, false), c, [EvRLockState; EvRUnlockState])
  else if bool_decide (EngineState_AvailableBuildSlots state < 1) then
    ((buildEntry_zero, false), c, [EvRLockState; EvAvailableBuildSlots; EvRUnlockState])
  else
    match NextTargetToBuild state with
    | None =>
        ((buildEntry_zero, false), c,
         [EvRLockState; EvAvailableBuildSlots; EvNextTargetToBuild; EvRUnlockState])
    | Some mt =>
        let count := GoInt.add (buildsStartedCount c) 1 in
        ((admittedEntry count mt, true), withCount count c,
         [EvRLockState; EvAvailableBuildSlots; EvNextTargetToBuild; EvRUnlockState])
    end.
Proof.
  unfold needsBuild, needsBuildLocked, mbind, M_bind, mret, M_ret, emit, receiver,
    setBuildsStartedCount.
  repeat case_bool_decide; try reflexivity.
  destruct (NextTargetToBuild state); reflexivity.
Qed.

Lemma needsBuild_admitted state c entry c' tr :
  needsBuild state c = ((entry, true), c', tr) ->
  exists mt,
    NextTargetToBuild state = Some mt
    /\ entry = admittedEntry (GoInt.add (buildsStartedCount c) 1) mt
    /\ c' = withCount (GoInt.add (buildsStartedCount c) 1) c.
Proof.
  rewrite needsBuild_cases. repeat case_bool_decide; try (intros [=]; done).
  destruct (NextTargetToBuild state) as [mt|]; [|intros [=]; done].
  cbv zeta. intros [= <- <- _]. by exists mt.
Qed.

(** C1. When the controller's count of started builds differs from the
    store's, [needsBuild] returns the empty entry and [false], leaves the
    controller as it was, and asks neither for the build slots nor for the
    next target: it only takes and releases the read lock. *)
Theorem needsBuild_out_of_sync state c :
  buildsStartedCount c <> EngineState_StartedBuildCount state ->
  needsBuild state c = ((buildEntry_zero, false), c, [EvRLockState; EvRUnlockState])
  /\ Forall (fun e => ~ consults e) (needsBuild state c).2.
Proof.
  intros Hne. rewrite needsBuild_cases, bool_decide_eq_true_2 by done.
  split; [done|]. simpl. repeat constructor; intros [Hc|Hc]; discriminate Hc.
Qed.

(** C5. With the counts in step and fewer than one build slot available,
    [needsBuild] returns the empty entry and [false] and leaves the
    controller as it was; the next target is not asked for, so what the
    selection would return plays no part. *)
Theorem needsBuild_no_slots state c :
  buildsStartedCount c = EngineState_StartedBuildCount state ->
  EngineState_AvailableBuildSlots state < 1 ->
  needsBuild state c
  = ((buildEntry_zero, false), c, [EvRLockState; EvAvailableBuildSlots; EvRUnlockState])
  /\ EvNextTargetToBuild ∉ (needsBuild state c).2.
Proof.
  intros Heq Hslots. rewrite needsBuild_cases.
  rewrite bool_decide_eq_false_2 by (intros Hne; by apply Hne).
  rewrite bool_decide_eq_true_2 by done.
  split; [done|]. simpl. rewrite !elem_of_cons, elem_of_nil.
  intros [Hc|[Hc|[Hc|[]]]]; discriminate Hc.
Qed.

(** When [needsBuild] declines, [OnChange] dispatches nothing and starts
    no goroutine. *)
Lemma OnChange_declined now state c entry tr :
  needsBuild state c = ((entry, false), c, tr) ->
  OnChange now state c = (tt, c, if disabledForTesting c then [] else tr).
Proof.
  intros Hnb. unfold OnChange, mbind, M_bind, mret, M_ret, receiver.
  destruct (disabledForTesting c); [done|]. rewrite Hnb. simpl.
  by rewrite app_nil_r.
Qed.

(** C8. An admitted entry carries the span identifier ["build:"] followed by
    the decimal form of the controller's counter as the admission left it,
    which is the counter before plus one on Go's [int]; the next admission
    by the same controller carries the identifier of the next [int], the
    mathematical successor unless the counter stood at the largest [int]. *)
Theorem needsBuild_spanID state c entry c' tr :
  needsBuild state c = ((entry, true), c', tr) ->
  entry_spanID entry = "build:" +:+ fmt.d (buildsStartedCount c')
  /\ buildsStartedCount c' = GoInt.add (buildsStartedCount c) 1
  /\ forall state2 entry2 c2 tr2,
       needsBuild state2 c' = ((entry2, true), c2, tr2) ->
       entry_spanID entry2 = "build:" +:+ fmt.d (GoInt.add (buildsStartedCount c') 1)
       /\ (buildsStartedCount c' <> GoInt.MaxInt ->
           entry_spanID entry2 = "build:" +:+ fmt.d (buildsStartedCount c' + 1)).
Proof.
  intros Hnb. apply needsBuild_admitted in Hnb as (mt & _ & -> & ->).
  split; [done|]. split; [done|].
  intros state2 entry2 c2 tr2 Hnb2.
  apply needsBuild_admitted in Hnb2 as (mt2 & _ & -> & ->).
  split; [done|]. intros Hmax. simpl in *.
  rewrite (GoIntFacts.add_no_overflow (GoInt.add (buildsStartedCount c) 1) 1); [done|].
  pose proof (GoIntFacts.wrap_inRange (buildsStartedCount c + 1)) as Hr.
  unfold GoInt.add in *. unfold GoInt.inRange in *.
  unfold GoInt.MaxInt, GoInt.MinInt, GoInt.size in *. lia.
Qed.

End Admission.

Section AdmissionExamples.
#[local] Existing Instance Demo.pkgs.
#[local] Existing Instance Demo.store.

Example SpanIDForBuildLog_1 : SpanIDForBuildLog 1 = "build:1"%string.
Proof. reflexivity. Qed.

Example demo_first_admission :
  needsBuild
    (Demo.storeState 0 1 (Some (Demo.candidate Demo.myapp Demo.neverBuilt "Initial Build")))
    (Demo.controller 0)
  = ((admittedEntry 1 (Demo.candidate Demo.myapp Demo.neverBuilt "Initial Build"), true),
     Demo.controller 1,
     [EvRLockState; EvAvailableBuildSlots; EvNextTargetToBuild; EvRUnlockState]).
Proof. vm_compute. reflexivity. Qed.

(** The controller has started one build that the store has not recorded:
    through C1, it declines although a slot and a candidate are there. *)
Lemma needsBuild_out_of_sync_witness :
  needsBuild
    (Demo.storeState 0 1 (Some (Demo.candidate Demo.myapp Demo.edited "Changed Files")))
    (Demo.controller 1)
  = ((buildEntry_zero, false), Demo.controller 1, [EvRLockState; EvRUnlockState]).
Proof.
  refine (proj1 (needsBuild_out_of_sync
           (Demo.storeState 0 1 (Some (Demo.candidate Demo.myapp Demo.edited "Changed Files")))
           (Demo.controller 1) _)).
  simpl. lia.
Defined.

(** No slot is free: through C5, the controller declines although a
    candidate is there. *)
Lemma needsBuild_no_slots_witness :
  needsBuild
    (Demo.storeState 1 0 (Some (Demo.candidate Demo.myapp Demo.edited "Changed Files")))
    (Demo.controller 1)
  = ((buildEntry_zero, false), Demo.controller 1,
     [EvRLockState; EvAvailableBuildSlots; EvRUnlockState]).
Proof.
  refine (proj1 (needsBuild_no_slots
           (Demo.storeState 1 0 (Some (Demo.candidate Demo.myapp Demo.edited "Changed Files")))
           (Demo.controller 1) _ _)).
  - reflexivity.
  - simpl. lia.
Defined.

(** The first two admissions of a new controller carry [build:1] and
    [build:2], through C8. *)
Lemma needsBuild_spanID_witness :
  entry_spanID
    (admittedEntry 1 (Demo.candidate Demo.myapp Demo.neverBuilt "Initial Build"))
  = "build:1"%string
  /\ entry_spanID
       (admittedEntry 2 (Demo.candidate Demo.myapp Demo.edited "Changed Files"))
     = "build:2"%string.
Proof.
  pose proof (needsBuild_spanID
    (Demo.storeState 0 1 (Some (Demo.candidate Demo.myapp Demo.neverBuilt "Initial Build")))
    (Demo.controller 0) _ _ _ demo_first_admission) as (H1 & _ & H2).
  split; [exact H1|].
  refine (proj1 (H2
    (Demo.storeState 1 1 (Some (Demo.candidate Demo.myapp Demo.edited "Changed Files")))
    _ (Demo.controller 2) _ _)).
  vm_compute. reflexivity.
Defined.

End AdmissionExamples.

(** ** The build of an admitted entry *)

Section Build.
Context `{Packages} `{!Store}.
Implicit Types (c : BuildController) (entry : buildEntry) (targets : list TargetSpec).

(** The line written for an entry, by the three cases of [logBuildEntry]. *)
Lemma logBuildEntry_trace w entry c :
  exists line,
    logBuildEntry w entry c
    = (tt, c, [EvDispatch (LogAction (writer_manifestName w) (writer_spanID w) InfoLvl
                             {[ FieldNameBuildEvent := "0"%string ]} line)])
    /\ (entry_firstBuild entry = true ->
        line = "Initial Build • " +:+ entry_name entry)
    /\ (entry_firstBuild entry = false -> length (entry_filesChanged entry) = 1%nat ->
        line = "1 File Changed: " +:+ FormatFileChangeList (entry_filesChanged entry)
                 +:+ " • " +:+ entry_name entry)
    /\ (entry_firstBuild entry = false -> (1 < length (entry_filesChanged entry))%nat ->
        line = fmt.d (Z.of_nat (length (entry_filesChanged entry))) +:+ " Files Changed: "
                 +:+ FormatFileChangeList (entry_filesChanged entry)
                 +:+ " • " +:+ entry_name entry)
    /\ (entry_firstBuild entry = false -> length (entry_filesChanged entry) = 0%nat ->
        line = BuildReason_String (entry_buildReason entry) +:+ " • " +:+ entry_name entry).
Proof.
  unfold logBuildEntry, Infof, Write, mbind, M_bind, mret, M_ret, emit.
  destruct (entry_firstBuild entry).
  { eexists. split; [reflexivity|]. repeat split; intros; done. }
  case_bool_decide as Hsome.
  - case_bool_decide as Hmany; eexists; (split; [reflexivity|]);
      repeat split; intros; try done; try lia.
    replace (length (entry_filesChanged entry)) with 1%nat by lia. reflexivity.
  - eexists. split; [reflexivity|]. repeat split; intros; try done; lia.
Qed.

Lemma validateAll_first targets :
  match validateAll targets with
  | Some err =>
      exists pre target post,
        targets = pre ++ target :: post
        /\ Forall (fun t => Validate t = None) pre
        /\ Validate target = Some err
  | None => Forall (fun t => Validate t = None) targets
  end.
Proof.
  induction targets as [|target targets IH]; simpl; [done|].
  destruct (Validate target) as [err|] eqn:E.
  - by exists [], target, targets.
  - destruct (validateAll targets) as [err|].
    + destruct IH as (pre & t & post & -> & Hpre & Ht).
      exists (target :: pre), t, post. split; [done|]. split; [|done].
      by constructor.
    + by constructor.
Qed.

(** C4. When some target of an entry does not validate, the build of the
    entry never calls the build engine, and it ends by dispatching the
    build-complete action of the entry's name and span with an empty result
    set and, as error, the error of the first target that does not
    validate. *)
Theorem buildGoroutine_validation_failure entry c :
  Exists (fun t => Validate t <> None) (entry_targets entry) ->
  exists pre target post err log,
    entry_targets entry = pre ++ target :: post
    /\ Forall (fun t => Validate t = None) pre
    /\ Validate target = Some err
    /\ buildAndDeploy entry c = ((∅, Some err), c, [])
    /\ buildGoroutine entry c
       = (tt, c, log ++ [EvDispatch (BuildCompleteAction (entry_name entry)
                                       (entry_spanID entry) ∅ (Some err))])
    /\ Forall (fun e => ~ callsEngine e) (buildGoroutine entry c).2.
Proof.
  intros Hbad.
  pose proof (validateAll_first (entry_targets entry)) as Hfirst.
  destruct (validateAll (entry_targets entry)) as [err|] eqn:Hval.
  - destruct Hfirst as (pre & target & post & Htargets & Hpre & Htarget).
    destruct (logBuildEntry_trace
                {| writer_manifestName := entry_name entry;
                   writer_spanID := entry_spanID entry |} entry c)
      as (line & Hlog & _).
    assert (buildAndDeploy entry c = ((∅, Some err), c, [])) as Hbd.
    { unfold buildAndDeploy. by rewrite Hval. }
    assert (buildGoroutine entry c
            = (tt, c, [EvDispatch (LogAction (entry_name entry) (entry_spanID entry) InfoLvl
                                     {[ FieldNameBuildEvent := "0"%string ]} line)]
                        ++ [EvDispatch (BuildCompleteAction (entry_name entry)
                                          (entry_spanID entry) ∅ (Some err))])) as Hgo.
    { unfold buildGoroutine, mbind, M_bind. rewrite Hlog. simpl. by rewrite Hbd. }
    eexists pre, target, post, err, _. repeat split; try done.
    rewrite Hgo. simpl.
    repeat constructor; intros (ts & ss & Hc); discriminate Hc.
  - exfalso. apply Exists_exists in Hbad as (t & Hin & Hne).
    rewrite Forall_forall in Hfirst. by apply Hne, Hfirst.
Qed.

(** When every target validates, the engine is called once, with the
    entry's targets and states, and what it returns is dispatched. *)
Lemma buildGoroutine_valid entry c :
  Forall (fun t => Validate t = None) (entry_targets entry) ->
  exists line,
    buildGoroutine entry c
    = (tt, c, [EvDispatch (LogAction (entry_name entry) (entry_spanID entry) InfoLvl
                             {[ FieldNameBuildEvent := "0"%string ]} line);
               EvBuildAndDeploy (entry_targets entry) (entry_buildStateSet entry);
               EvDispatch (BuildCompleteAction (entry_name entry) (entry_spanID entry)
                             (b c (entry_targets entry) (entry_buildStateSet entry)).1
                             (b c (entry_targets entry) (entry_buildStateSet entry)).2)]).
Proof.
  intros Hok.
  pose proof (validateAll_first (entry_targets entry)) as Hfirst.
  destruct (validateAll (entry_targets entry)) as [err|] eqn:Hval.
  - destruct Hfirst as (pre & target & post & Htargets & _ & Htarget).
    rewrite Htargets in Hok. apply Forall_app in Hok as [_ Hok].
    apply Forall_cons in Hok as [Hok _]. congruence.
  - destruct (logBuildEntry_trace
                {| writer_manifestName := entry_name entry;
                   writer_spanID := entry_spanID entry |} entry c)
      as (line & Hlog & _).
    exists line. unfold buildGoroutine, buildAndDeploy, mbind, M_bind. rewrite Hlog, Hval.
    unfold receiver, emit, mret, M_ret. simpl.
    by destruct (b c _ _).
Qed.

(** C9. The build of an entry begins with one log action, at level info,
    under the entry's name and span, and writes no other log line; its
    message is ["Initial Build • <name>"] for a first build, otherwise
    ["<N> File Changed: <list> • <name>"] for one changed file and
    ["<N> Files Changed: <list> • <name>"] for N > 1 changed files,
    otherwise ["<reason> • <name>"]. *)
Theorem buildGoroutine_summary_line entry c :
  exists line rest,
    (buildGoroutine entry c).2
    = EvDispatch (LogAction (entry_name entry) (entry_spanID entry) InfoLvl
                    {[ FieldNameBuildEvent := "0"%string ]} line) :: rest
    /\ Forall (fun e => ~ dispatchesLog e) rest
    /\ (entry_firstBuild entry = true ->
        line = "Initial Build • " +:+ entry_name entry)
    /\ (entry_firstBuild entry = false -> length (entry_filesChanged entry) = 1%nat ->
        line = "1 File Changed: " +:+ FormatFileChangeList (entry_filesChanged entry)
                 +:+ " • " +:+ entry_name entry)
    /\ (entry_firstBuild entry = false -> (1 < length (entry_filesChanged entry))%nat ->
        line = fmt.d (Z.of_nat (length (entry_filesChanged entry))) +:+ " Files Changed: "
                 +:+ FormatFileChangeList (entry_filesChanged entry)
                 +:+ " • " +:+ entry_name entry)
    /\ (entry_firstBuild entry = false -> length (entry_filesChanged entry) = 0%nat ->
        line = BuildReason_String (entry_buildReason entry) +:+ " • " +:+ entry_name entry).
Proof.
  destruct (logBuildEntry_trace
              {| writer_manifestName := entry_name entry;
                 writer_spanID := entry_spanID entry |} entry c)
    as (line & Hlog & Hline).
  exists line. unfold buildGoroutine, buildAndDeploy, mbind, M_bind. rewrite Hlog.
  unfold receiver, emit, mret, M_ret. simpl.
  destruct (validateAll (entry_targets entry)) as [err|].
  - eexists. split; [reflexivity|]. split; [|exact Hline].
    repeat constructor; intros (n & s & l & f & p & Hc); discriminate Hc.
  - destruct (b c _ _) as [result err]. eexists. split; [reflexivity|].
    split; [|exact Hline].
    repeat constructor; intros (n & s & l & f & p & Hc); discriminate Hc.
Qed.

End Build.

Section BuildExamples.
#[local] Existing Instance Demo.pkgs.
#[local] Existing Instance Demo.store.

Example demo_build_first :
  buildGoroutine Demo.firstEntry (Demo.controller 1)
  = (tt, Demo.controller 1,
     [EvDispatch (LogAction "myapp" "build:1" InfoLvl Demo.buildEvent "Initial Build • myapp");
      EvBuildAndDeploy Demo.imageK8sTargets (entry_buildStateSet Demo.firstEntry);
      EvDispatch (BuildCompleteAction "myapp" "build:1" ∅ None)]).
Proof. vm_compute. reflexivity. Qed.

Example demo_build_manual :
  (buildGoroutine Demo.manualEntry (Demo.controller 2)).2 !! 0%nat
  = Some (EvDispatch (LogAction "myapp" "build:2" InfoLvl Demo.buildEvent
                        "triggered manually • myapp")).
Proof. vm_compute. reflexivity. Qed.

Example demo_build_edited :
  (buildGoroutine Demo.editedEntry (Demo.controller 2)).2 !! 0%nat
  = Some (EvDispatch (LogAction "myapp" "build:2" InfoLvl Demo.buildEvent
                        "2 Files Changed: [a.go z.go] • myapp")).
Proof. vm_compute. reflexivity. Qed.

Example demo_build_broken :
  buildGoroutine Demo.brokenEntry (Demo.controller 1)
  = (tt, Demo.controller 1,
     [EvDispatch (LogAction "broken" "build:1" InfoLvl Demo.buildEvent "Initial Build • broken");
      EvDispatch (BuildCompleteAction "broken" "build:1" ∅
                    (Some "image target has no build details"))]).
Proof. vm_compute. reflexivity. Qed.

(** The second image and the deploy target of [broken] do not validate:
    through C4, the engine is not called and the error dispatched is the
    image's. *)
Lemma buildGoroutine_validation_failure_witness :
  exists pre target post err log,
    entry_targets Demo.brokenEntry = pre ++ target :: post
    /\ Forall (fun t => Validate t = None) pre
    /\ Validate target = Some err
    /\ buildAndDeploy Demo.brokenEntry (Demo.controller 1)
       = ((∅, Some err), Demo.controller 1, [])
    /\ buildGoroutine Demo.brokenEntry (Demo.controller 1)
       = (tt, Demo.controller 1,
          log ++ [EvDispatch (BuildCompleteAction (entry_name Demo.brokenEntry)
                                (entry_spanID Demo.brokenEntry) ∅ (Some err))])
    /\ Forall (fun e => ~ callsEngine e)
         (buildGoroutine Demo.brokenEntry (Demo.controller 1)).2.
Proof.
  apply (buildGoroutine_validation_failure Demo.brokenEntry (Demo.controller 1)).
  simpl. apply Exists_cons_tl, Exists_cons_hd. simpl. discriminate.
Defined.

(** The first build of [myapp] begins with the line of a first build,
    through C9. *)
Lemma buildGoroutine_summary_line_witness :
  exists rest,
    (buildGoroutine Demo.firstEntry (Demo.controller 1)).2
    = EvDispatch (LogAction "myapp" "build:1" InfoLvl Demo.buildEvent
                    "Initial Build • myapp") :: rest.
Proof.
  destruct (buildGoroutine_summary_line Demo.firstEntry (Demo.controller 1))
    as (line & rest & Htrace & _ & Hfirst & _).
  exists rest. rewrite Htrace, (Hfirst eq_refl). reflexivity.
Defined.

End BuildExamples.

(** ** More on the assembly of build states *)

Section AssembleLookup.
Context `{Packages}.
Implicit Types (manifest : Manifest) (ms : ManifestState) (spec : TargetSpec)
  (specs : list TargetSpec) (result : gmap TargetID BuildState) (id : TargetID)
  (bs : BuildState).

Lemma statesOf_lookup manifest ms specs result id :
  statesOf manifest ms specs result !! id
  = match lastStateSpec id specs with
    | Some spec => Some (targetBuildState manifest ms spec)
    | None => result !! id
    end.
Proof.
  revert result. unfold statesOf, lastStateSpec.
  induction specs as [|spec specs IH]; intros result; [done|].
  cbn [foldl]. rewrite IH, filter_cons. clear IH.
  case_decide as Hspec.
  - destruct Hspec as [Hty <-]. rewrite Hty, last_cons.
    destruct (last _); [done|]. by rewrite lookup_insert_eq.
  - destruct (last _); [done|].
    destruct (hasBuildState (Type_ (ID spec))) eqn:Hty; [|done].
    rewrite lookup_insert_ne; [done|]. intros Heq. by apply Hspec.
Qed.

Lemma lastStateSpec_Some id specs spec :
  lastStateSpec id specs = Some spec ->
  spec ∈ specs /\ hasBuildState (Type_ (ID spec)) = true /\ ID spec = id.
Proof.
  unfold lastStateSpec. intros Hlast. apply last_Some_elem_of in Hlast.
  apply list_elem_of_filter in Hlast. tauto.
Qed.

Lemma lastStateSpec_stateSpecs id specs :
  lastStateSpec id (stateSpecs specs) = lastStateSpec id specs.
Proof.
  unfold lastStateSpec, stateSpecs. f_equal.
  induction specs as [|spec specs IH]; [done|].
  rewrite (filter_cons _ spec specs). case_decide as Hty.
  - rewrite !filter_cons, IH. by repeat case_decide.
  - rewrite IH, filter_cons. case_decide as Hc; [|done]. by destruct Hc.
Qed.

Lemma anyChanged_stateSpecs ms specs :
  existsb (fun spec => hasBuildState (Type_ (ID spec)) && changedb ms (ID spec))
          (stateSpecs specs)
  = existsb (fun spec => hasBuildState (Type_ (ID spec)) && changedb ms (ID spec)) specs.
Proof.
  unfold stateSpecs. induction specs as [|spec specs IH]; [done|].
  rewrite filter_cons. case_decide as Hty; simpl; rewrite IH; [done|].
  by destruct (hasBuildState (Type_ (ID spec))).
Qed.

Lemma WithNeedsForceUpdate_same bs :
  WithNeedsForceUpdate (BuildState_NeedsForceUpdate bs) bs = bs.
Proof. by destruct bs. Qed.

Lemma targetBuildState_NeedsForceUpdate manifest ms spec :
  BuildState_NeedsForceUpdate (targetBuildState manifest ms spec) = false.
Proof. unfold targetBuildState. by rewrite withContainers_NeedsForceUpdate. Qed.

Lemma targetBuildState_not_forced manifest ms spec :
  WithNeedsForceUpdate false (targetBuildState manifest ms spec)
  = targetBuildState manifest ms spec.
Proof.
  rewrite <- (targetBuildState_NeedsForceUpdate manifest ms spec) at 1.
  apply WithNeedsForceUpdate_same.
Qed.

(** Every lookup in the assembled set, by the last spec of its key and one
    flag for the whole set. *)
Lemma buildStateSet_lookup_flag manifest specs ms :
  exists force : bool,
    (force = true <->
     ManifestState_NeedsRebuildFromCrash ms = false
     /\ ~ exists spec, spec ∈ stateSpecs specs /\ changedSinceLastBuild ms (ID spec))
    /\ forall id,
         buildStateSet manifest specs ms !! id
         = (fun spec => WithNeedsForceUpdate force (targetBuildState manifest ms spec))
             <$> lastStateSpec id specs.
Proof.
  rewrite buildStateSet_eq. cbv zeta.
  pose proof (anyChanged_true ms specs) as Hany.
  destruct (existsb _ specs) eqn:Hex.
  - exists false. rewrite andb_false_r. split.
    + split; [done|]. intros [_ Hno]. destruct Hno. by apply Hany.
    + intros id. rewrite statesOf_lookup, lookup_empty.
      destruct (lastStateSpec id specs) as [spec|]; [|done]. simpl.
      by rewrite targetBuildState_not_forced.
  - destruct (ManifestState_NeedsRebuildFromCrash ms) eqn:Hcrash; simpl.
    + exists false. split.
      * split; [done|]. by intros [? _].
      * intros id. rewrite statesOf_lookup, lookup_empty.
        destruct (lastStateSpec id specs) as [spec|]; [|done]. simpl.
        by rewrite targetBuildState_not_forced.
    + exists true. split.
      * split; [|done]. intros _. split; [done|]. intros Hch.
        apply Hany in Hch. congruence.
      * intros id. rewrite lookup_fmap, statesOf_lookup, lookup_empty.
        by destruct (lastStateSpec id specs).
Qed.

(** X1. The state stored under a key is the one assembled for the last
    spec of the list that has this key and a type that gets a state: a later
    spec with the same identity overwrites an earlier one, and a key with no
    such spec has no state. *)
Theorem buildStateSet_last_spec_wins manifest specs ms id :
  match lastStateSpec id specs with
  | Some spec =>
      exists bs,
        buildStateSet manifest specs ms !! id = Some bs
        /\ bs = WithNeedsForceUpdate (BuildState_NeedsForceUpdate bs)
                  (targetBuildState manifest ms spec)
  | None => buildStateSet manifest specs ms !! id = None
  end.
Proof.
  destruct (buildStateSet_lookup_flag manifest specs ms) as (force & _ & Hlook).
  rewrite Hlook. destruct (lastStateSpec id specs) as [spec|]; [|done].
  simpl. by eexists.
Qed.

(** X2. All states of one assembled set carry the same force-rebuild
    flag. *)
Theorem buildStateSet_force_uniform manifest specs ms id1 id2 bs1 bs2 :
  buildStateSet manifest specs ms !! id1 = Some bs1 ->
  buildStateSet manifest specs ms !! id2 = Some bs2 ->
  BuildState_NeedsForceUpdate bs1 = BuildState_NeedsForceUpdate bs2.
Proof.
  destruct (buildStateSet_lookup_flag manifest specs ms) as (force & _ & Hlook).
  rewrite !Hlook. intros H1 H2.
  destruct (lastStateSpec id1 specs), (lastStateSpec id2 specs); simplify_eq/=.
  done.
Qed.

(** X3. The state under a key holds the last successful result of that
    target's build status, and its changed files are exactly the files with
    a pending change in that status, as many as there are. *)
Theorem buildStateSet_state_of_status manifest specs ms id bs :
  buildStateSet manifest specs ms !! id = Some bs ->
  BuildState_LastSuccessfulResult bs
  = BuildStatus_LastSuccessfulResult (ManifestState_BuildStatus ms id)
  /\ (forall file,
        file ∈ BuildState_FilesChanged bs
        <-> is_Some (BuildStatus_PendingFileChanges (ManifestState_BuildStatus ms id) !! file))
  /\ length (BuildState_FilesChanged bs)
     = size (BuildStatus_PendingFileChanges (ManifestState_BuildStatus ms id)).
Proof.
  destruct (buildStateSet_lookup_flag manifest specs ms) as (force & _ & Hlook).
  rewrite Hlook. destruct (lastStateSpec id specs) as [spec|] eqn:Hlast; [|done].
  apply lastStateSpec_Some in Hlast as (_ & _ & <-). intros [= <-].
  unfold targetBuildState. split; [|split].
  - unfold withContainers. simpl. destruct (negb _); [|done]. destruct spec; try done.
    destruct (Manifest_IsK8s manifest), (Manifest_IsDC manifest); simpl; try done;
      destruct (RunningContainersForTargetForOnePod _ _) as [cInfos [err|]]; done.
  - intros file. simpl. rewrite withContainers_FilesChanged. simpl.
    rewrite sort_Strings_perm, list_elem_of_fmap. split.
    + intros ([f ts] & -> & Hin). apply elem_of_map_to_list in Hin. by exists ts.
    + intros [ts Hts]. exists (file, ts). split; [done|]. by apply elem_of_map_to_list.
  - simpl. rewrite withContainers_FilesChanged. simpl.
    by rewrite sort_Strings_perm, length_fmap, length_map_to_list.
Qed.

(** X4. Specs whose type gets no state play no part: the set assembled from
    a list is the set assembled from its image, docker-compose and local
    specs alone. *)
Theorem buildStateSet_other_specs_ignored manifest specs ms :
  buildStateSet manifest specs ms = buildStateSet manifest (stateSpecs specs) ms.
Proof.
  apply map_eq. intros id.
  rewrite !buildStateSet_eq. cbv zeta. rewrite anyChanged_stateSpecs.
  destruct (_ && _); rewrite ?lookup_fmap, !statesOf_lookup, lastStateSpec_stateSpecs; done.
Qed.

(** X5. Running containers, or the error met while looking for them, are
    attached only for a manifest that is not flagged for a crash rebuild and
    is a Kubernetes or docker-compose one, and only under the key of an
    image target of the list. *)
Theorem buildStateSet_containers_only_for_images manifest specs ms id bs :
  buildStateSet manifest specs ms !! id = Some bs ->
  BuildState_RunningContainers bs <> [] \/ BuildState_RunningContainerError bs <> None ->
  ManifestState_NeedsRebuildFromCrash ms = false
  /\ (Manifest_IsK8s manifest = true \/ Manifest_IsDC manifest = true)
  /\ exists iTarget, ImageTargetSpec iTarget ∈ specs /\ ImageTarget_ID iTarget = id.
Proof.
  destruct (buildStateSet_lookup_flag manifest specs ms) as (force & _ & Hlook).
  rewrite Hlook. destruct (lastStateSpec id specs) as [spec|] eqn:Hlast; [|done].
  apply lastStateSpec_Some in Hlast as (Hin & _ & Hid). intros [= <-].
  unfold targetBuildState, withContainers. simpl.
  destruct (ManifestState_NeedsRebuildFromCrash ms); simpl; [intros [Hc|Hc]; done|].
  destruct spec as [iTarget| | |]; simpl; try (intros [Hc|Hc]; done).
  destruct (Manifest_IsK8s manifest), (Manifest_IsDC manifest); simpl;
    try (intros [Hc|Hc]; done); intros _; (split; [done|]);
    (split; [tauto|]); by exists iTarget.
Qed.

(** X6. For a Kubernetes manifest that is not a docker-compose one and not
    flagged for a crash rebuild, and a key under which the list has only the
    image target [iTarget]: when the lookup of the pod's containers fails,
    the state carries the error and no containers; when it succeeds, the
    state carries the containers found and no error. *)
Theorem buildStateSet_pod_containers manifest specs ms id bs iTarget :
  ManifestState_NeedsRebuildFromCrash ms = false ->
  Manifest_IsK8s manifest = true ->
  Manifest_IsDC manifest = false ->
  (forall spec, spec ∈ stateSpecs specs -> ID spec = id -> spec = ImageTargetSpec iTarget) ->
  buildStateSet manifest specs ms !! id = Some bs ->
  match RunningContainersForTargetForOnePod iTarget (ManifestState_K8sRuntimeState ms) with
  | (_, Some err) =>
      BuildState_RunningContainerError bs = Some err /\ BuildState_RunningContainers bs = []
  | (cInfos, None) =>
      BuildState_RunningContainers bs = cInfos /\ BuildState_RunningContainerError bs = None
  end.
Proof.
  intros Hcrash Hk8s Hdc Honly.
  destruct (buildStateSet_lookup_flag manifest specs ms) as (force & _ & Hlook).
  rewrite Hlook. destruct (lastStateSpec id specs) as [spec|] eqn:Hlast; [|done].
  apply lastStateSpec_Some in Hlast as (Hin & Hty & Hid). intros [= <-].
  rewrite (Honly spec) by (by try apply list_elem_of_filter).
  unfold targetBuildState, withContainers. rewrite Hcrash, Hk8s, Hdc. simpl.
  by destruct (RunningContainersForTargetForOnePod _ _) as [cInfos [err|]].
Qed.

(** X7. For a docker-compose manifest not flagged for a crash rebuild, the
    state under a key that the list gives only to the image target
    [iTarget] carries the containers of the docker-compose runtime. *)
Theorem buildStateSet_dc_containers manifest specs ms id bs iTarget :
  ManifestState_NeedsRebuildFromCrash ms = false ->
  Manifest_IsDC manifest = true ->
  (forall spec, spec ∈ stateSpecs specs -> ID spec = id -> spec = ImageTargetSpec iTarget) ->
  buildStateSet manifest specs ms !! id = Some bs ->
  BuildState_RunningContainers bs = RunningContainersForDC (ManifestState_DCRuntimeState ms).
Proof.
  intros Hcrash Hdc Honly.
  destruct (buildStateSet_lookup_flag manifest specs ms) as (force & _ & Hlook).
  rewrite Hlook. destruct (lastStateSpec id specs) as [spec|] eqn:Hlast; [|done].
  apply lastStateSpec_Some in Hlast as (Hin & Hty & Hid). intros [= <-].
  rewrite (Honly spec) by (by try apply list_elem_of_filter).
  unfold targetBuildState, withContainers. by rewrite Hcrash, Hdc.
Qed.

End AssembleLookup.

(** ** More on admission *)

Lemma GoInt_add_one_ne x : GoInt.add x 1 <> x.
Proof.
  unfold GoInt.add, GoInt.wrap, GoInt.MinInt, GoInt.size. intros Heq.
  pose proof (Z.mod_pos_bound (x + 1 - - 2 ^ (64 - 1)) (2 ^ 64) ltac:(lia)) as Hb.
  destruct (Z.eq_dec (x + 1 - - 2 ^ (64 - 1)) (2 ^ 64)) as [Hfull|Hnot].
  - rewrite Hfull, Z.mod_same in Heq by lia. lia.
  - rewrite Z.mod_small in Heq by lia. lia.
Qed.

Lemma fmt_d_inj z1 z2 : fmt.d z1 = fmt.d z2 -> z1 = z2.
Proof.
  unfold fmt.d. intros Heq.
  assert (forall z, NilZero.int_of_string (NilZero.string_of_int (Z.to_int z))
                    = Some (Z.to_int z)) as Hparse.
  { intros z. apply NilZero.isi; destruct z; simpl; try discriminate;
      intros [= Hnil]; by apply DecimalPos.Unsigned.to_uint_nonnil in Hnil. }
  pose proof (Hparse z1) as H1. rewrite Heq, Hparse in H1.
  injection H1 as H1. by rewrite <- (DecimalZ.of_to z1), <- (DecimalZ.of_to z2), H1.
Qed.

Section AdmissionMore.
Context `{Packages} `{!Store}.
Implicit Types (c : BuildController) (state : EngineState) (entry : buildEntry).

Lemma needsBuild_ok_iff state c :
  (needsBuild state c).1.1.2 = true <-> guardsPass state c.
Proof.
  rewrite needsBuild_cases. unfold guardsPass.
  repeat case_bool_decide; simpl.
  - split; [done|]. intros (? & _). done.
  - split; [done|]. intros (_ & ? & _). lia.
  - destruct (NextTargetToBuild state) as [mt|]; simpl.
    + split; [|done]. intros _. split; [by destruct (decide (buildsStartedCount c
        = EngineState_StartedBuildCount state))|]. split; [lia|by eexists].
    + split; [done|]. intros (_ & _ & [? ?]). done.
Qed.

(** X8. [needsBuild] admits a build exactly when the three guards pass:
    the controller's count equals the store's, at least one build slot is
    available, and the selection returns a candidate. *)
Theorem needsBuild_admits_iff state c :
  (needsBuild state c).1.1.2 = true
  <-> buildsStartedCount c = EngineState_StartedBuildCount state
      /\ 1 <= EngineState_AvailableBuildSlots state
      /\ is_Some (NextTargetToBuild state).
Proof. apply needsBuild_ok_iff. Qed.

(** X9. [needsBuild] changes nothing of the controller but the count of
    started builds, which goes up by one on Go's [int] when a build is
    admitted and stays when none is; an entry returned with [false] is the
    empty entry. *)
Theorem needsBuild_counter state c :
  let '((entry, ok), c', _) := needsBuild state c in
  b c' = b c
  /\ disabledForTesting c' = disabledForTesting c
  /\ buildsStartedCount c'
     = (if ok then GoInt.add (buildsStartedCount c) 1 else buildsStartedCount c)
  /\ (ok = false -> entry = buildEntry_zero).
Proof.
  rewrite needsBuild_cases. repeat case_bool_decide; try done.
  by destruct (NextTargetToBuild state).
Qed.

(** X10. On every path [needsBuild] takes the read lock first and releases
    it last, once each, and when it asks for the next target it has asked
    for the build slots before. *)
Theorem needsBuild_lock_discipline state c :
  exists locked,
    (needsBuild state c).2 = EvRLockState :: locked ++ [EvRUnlockState]
    /\ Forall (fun e => e <> EvRLockState /\ e <> EvRUnlockState) locked
    /\ (EvNextTargetToBuild ∈ locked ->
        locked = [EvAvailableBuildSlots; EvNextTargetToBuild]).
Proof.
  rewrite needsBuild_cases. repeat case_bool_decide.
  - exists []. repeat split; [done|]. by intros ?%elem_of_nil.
  - exists [EvAvailableBuildSlots]. repeat split; [by repeat constructor|].
    intros Hin. apply list_elem_of_singleton in Hin. discriminate Hin.
  - exists [EvAvailableBuildSlots; EvNextTargetToBuild].
    destruct (NextTargetToBuild state); repeat split; by repeat constructor.
Qed.

(** X11. An admitted entry describes the candidate the selection returned:
    the manifest's name, the targets [buildTargets] resolves for it, the
    states [buildStateSet] assembles for those targets, and as changed files
    the config files that caused the change followed by the files of the
    state set; every key of its state set is the identity of one of its
    targets. *)
Theorem needsBuild_entry_of_candidate state c entry c' tr :
  needsBuild state c = ((entry, true), c', tr) ->
  exists mt,
    NextTargetToBuild state = Some mt
    /\ entry_name entry = Manifest_Name (ManifestTarget_Manifest mt)
    /\ entry_targets entry = buildTargets (ManifestTarget_Manifest mt)
    /\ entry_buildStateSet entry
       = buildStateSet (ManifestTarget_Manifest mt) (entry_targets entry)
           (ManifestTarget_State mt)
    /\ entry_firstBuild entry = negb (ManifestState_StartedFirstBuild (ManifestTarget_State mt))
    /\ entry_buildReason entry = ManifestTarget_NextBuildReason mt
    /\ entry_filesChanged entry
       = ManifestState_ConfigFilesThatCausedChange (ManifestTarget_State mt)
           ++ BuildStateSet_FilesChanged (entry_buildStateSet entry)
    /\ forall id, id ∈ dom (entry_buildStateSet entry) ->
                  exists spec, spec ∈ entry_targets entry /\ ID spec = id.
Proof.
  intros Hnb. apply needsBuild_admitted in Hnb as (mt & Hmt & -> & _).
  exists mt. repeat split; try done.
  intros id. simpl. rewrite elem_of_dom.
  destruct (buildStateSet_lookup_flag (ManifestTarget_Manifest mt)
              (buildTargets (ManifestTarget_Manifest mt)) (ManifestTarget_State mt))
    as (force & _ & Hlook).
  rewrite Hlook. destruct (lastStateSpec id _) as [spec|] eqn:Hlast.
  - intros _. apply lastStateSpec_Some in Hlast as (Hin & _ & Hid). by exists spec.
  - by intros [? ?].
Qed.

(** X12. After an admission the controller admits again exactly when the
    store's count of started builds has gone up by one, a slot is available
    and the selection returns a candidate; against a store whose count still
    stands where it stood, it declines. *)
Theorem needsBuild_next_admission state c entry c' tr :
  needsBuild state c = ((entry, true), c', tr) ->
  forall state2,
    ((needsBuild state2 c').1.1.2 = true
     <-> EngineState_StartedBuildCount state2
         = GoInt.add (EngineState_StartedBuildCount state) 1
         /\ 1 <= EngineState_AvailableBuildSlots state2
         /\ is_Some (NextTargetToBuild state2))
    /\ (EngineState_StartedBuildCount state2 = EngineState_StartedBuildCount state ->
        needsBuild state2 c' = ((buildEntry_zero, false), c', [EvRLockState; EvRUnlockState])).
Proof.
  intros Hnb.
  assert (guardsPass state c) as (Hsync & _ & _).
  { apply needsBuild_ok_iff. by rewrite Hnb. }
  apply needsBuild_admitted in Hnb as (mt & _ & _ & ->).
  intros state2. split.
  - rewrite needsBuild_ok_iff. unfold guardsPass. simpl. rewrite Hsync.
    split; intros (? & ? & ?); done.
  - intros Hsame. rewrite needsBuild_cases, bool_decide_eq_true_2; [done|].
    simpl. rewrite Hsame, <- Hsync. apply GoInt_add_one_ne.
Qed.

(** X13. The span identifier tells the count: different counts have
    different identifiers. *)
Theorem SpanIDForBuildLog_inj n1 n2 :
  n1 <> n2 -> SpanIDForBuildLog n1 <> SpanIDForBuildLog n2.
Proof.
  unfold SpanIDForBuildLog. simpl. intros Hne [= Heq]. by apply Hne, fmt_d_inj.
Qed.

(** X14. Two admissions in a row by one controller never carry the same
    span identifier, whatever the counter stood at. *)
Theorem needsBuild_spans_differ state1 state2 c entry1 entry2 c1 c2 tr1 tr2 :
  needsBuild state1 c = ((entry1, true), c1, tr1) ->
  needsBuild state2 c1 = ((entry2, true), c2, tr2) ->
  entry_spanID entry1 <> entry_spanID entry2.
Proof.
  intros H1 H2.
  apply needsBuild_admitted in H1 as (mt1 & _ & -> & ->).
  apply needsBuild_admitted in H2 as (mt2 & _ & -> & _).
  simpl. unfold SpanIDForBuildLog. simpl. intros [= Heq].
  apply fmt_d_inj in Heq. symmetry in Heq. by apply GoInt_add_one_ne in Heq.
Qed.

(** X15. A new controller admits its first build only against a store
    that has recorded no started build, and that build carries the span
    ["build:1"]. *)
Theorem NewBuildController_first_build (engine : BuildAndDeployer) state entry c' tr :
  needsBuild state (NewBuildController engine) = ((entry, true), c', tr) ->
  EngineState_StartedBuildCount state = 0
  /\ entry_spanID entry = "build:1"%string
  /\ buildsStartedCount c' = 1
  /\ b c' = engine.
Proof.
  intros Hnb.
  assert (guardsPass state (NewBuildController engine)) as (Hsync & _ & _).
  { apply needsBuild_ok_iff. by rewrite Hnb. }
  apply needsBuild_admitted in Hnb as (mt & _ & -> & ->). by split.
Qed.

End AdmissionMore.

(** ** The subscriber entry point *)

Section Subscriber.
Context `{Packages} `{!Store}.
Implicit Types (c : BuildController) (state : EngineState) (entry : buildEntry)
  (now : Time).

Lemma OnChange_cases now state c :
  OnChange now state c =
  if disabledForTesting c then (tt, c, [])
  else
    let '((entry, ok), c', tr) := needsBuild state c in
    if ok then
      (tt, c',
       tr ++ [EvDispatch (BuildStartedAction (entry_name entry) now
                            (entry_filesChanged entry) (entry_buildReason entry)
                            (entry_spanID entry));
              EvGo entry])
    else (tt, c', tr).
Proof.
  unfold OnChange, mbind, M_bind, mret, M_ret, receiver, emit.
  destruct (disabledForTesting c); [done|].
  destruct (needsBuild state c) as [[[entry ok] c'] tr].
  destruct ok; simpl; by rewrite ?app_nil_r.
Qed.

Lemma needsBuild_trace_quiet state c :
  Forall (fun e => ~ dispatches e /\ ~ startsGoroutine e) (needsBuild state c).2.
Proof.
  rewrite needsBuild_cases.
  assert (forall e, e = EvRLockState \/ e = EvRUnlockState \/ e = EvAvailableBuildSlots
                    \/ e = EvNextTargetToBuild ->
                    ~ dispatches e /\ ~ startsGoroutine e) as Hq.
  { intros e He. split; intros [x Hx]; subst e; by destruct He as [|[|[|]]]. }
  repeat case_bool_decide; [| |destruct (NextTargetToBuild state)]; simpl;
    repeat constructor; apply Hq; tauto.
Qed.

(** X16. When the controller is not disabled and the three guards pass,
    [OnChange] releases the read lock, then dispatches the build-started
    action with the entry's name, the time read, the entry's changed files,
    reason and span, and only then starts the goroutine of that entry; the
    count of started builds has gone up by one. *)
Theorem OnChange_starts_build now state c mt :
  disabledForTesting c = false ->
  buildsStartedCount c = EngineState_StartedBuildCount state ->
  1 <= EngineState_AvailableBuildSlots state ->
  NextTargetToBuild state = Some mt ->
  let count := GoInt.add (buildsStartedCount c) 1 in
  let entry := admittedEntry count mt in
  OnChange now state c
  = (tt, withCount count c,
     [EvRLockState; EvAvailableBuildSlots; EvNextTargetToBuild; EvRUnlockState;
      EvDispatch (BuildStartedAction (Manifest_Name (ManifestTarget_Manifest mt)) now
                    (entry_filesChanged entry) (ManifestTarget_NextBuildReason mt)
                    (SpanIDForBuildLog count));
      EvGo entry]).
Proof.
  intros Hen Hsync Hslots Hmt. rewrite OnChange_cases, Hen, needsBuild_cases.
  rewrite bool_decide_eq_false_2 by (intros Hne; by apply Hne).
  rewrite bool_decide_eq_false_2 by lia.
  by rewrite Hmt.
Qed.

(** X17. When the controller is disabled or one of the three guards does
    not pass, [OnChange] dispatches no action, starts no goroutine and
    leaves the controller as it was. *)
Theorem OnChange_no_build now state c :
  disabledForTesting c = true
  \/ buildsStartedCount c <> EngineState_StartedBuildCount state
  \/ EngineState_AvailableBuildSlots state < 1
  \/ NextTargetToBuild state = None ->
  (OnChange now state c).1.2 = c
  /\ Forall (fun e => ~ dispatches e /\ ~ startsGoroutine e) (OnChange now state c).2.
Proof.
  intros Hwhy. rewrite OnChange_cases.
  destruct (disabledForTesting c) eqn:Hdis; [by split|].
  destruct Hwhy as [Hwhy|Hwhy]; [done|].
  pose proof (needsBuild_trace_quiet state c) as Hquiet.
  assert ((needsBuild state c).1.1.2 = false /\ (needsBuild state c).1.2 = c) as [Hok Hc].
  { rewrite needsBuild_cases. repeat case_bool_decide; try done.
    - destruct Hwhy as [?|[?|Hnone]]; [done|lia|]. by rewrite Hnone. }
  destruct (needsBuild state c) as [[[entry ok] c'] tr]. simpl in *.
  by rewrite Hok, Hc.
Qed.

(** X18. [OnChange] starts at most one build from one reading of the
    store's count: after a call that started a goroutine, a call against a
    store whose count of started builds has not moved only takes and
    releases the read lock. *)
Theorem OnChange_not_twice now1 now2 state1 state2 c c1 tr1 entry :
  OnChange now1 state1 c = (tt, c1, tr1) ->
  EvGo entry ∈ tr1 ->
  EngineState_StartedBuildCount state2 = EngineState_StartedBuildCount state1 ->
  OnChange now2 state2 c1 = (tt, c1, [EvRLockState; EvRUnlockState]).
Proof.
  rewrite OnChange_cases. intros Hfirst Hgo Hsame.
  destruct (disabledForTesting c) eqn:Hdis.
  { injection Hfirst as <- <-. by apply elem_of_nil in Hgo. }
  pose proof (needsBuild_trace_quiet state1 c) as Hquiet.
  pose proof (needsBuild_ok_iff state1 c) as Hiff.
  pose proof (needsBuild_cases state1 c) as Hcases.
  destruct (needsBuild state1 c) as [[[entry1 ok] c1'] tr] eqn:Hnb. simpl in *.
  destruct ok.
  - injection Hfirst as <- <-. destruct (proj1 Hiff eq_refl) as (Hsync & _ & _).
    apply needsBuild_admitted in Hnb as (mt & _ & _ & ->).
    rewrite OnChange_cases. simpl. rewrite Hdis, needsBuild_cases.
    rewrite bool_decide_eq_true_2; [done|].
    simpl. rewrite Hsame, <- Hsync. apply GoInt_add_one_ne.
  - injection Hfirst as <- <-. rewrite Forall_forall in Hquiet.
    destruct (Hquiet _ Hgo) as [_ Hno]. destruct Hno. by eexists.
Qed.

(** X19. Once [DisableForTesting] has been called, [OnChange] does nothing
    at all: no lock is taken, no action dispatched, no goroutine started;
    the engine and the count of started builds are those of before. *)
Theorem DisableForTesting_OnChange now state c :
  let c' := (DisableForTesting c).1.2 in
  OnChange now state c' = (tt, c', [])
  /\ b c' = b c
  /\ buildsStartedCount c' = buildsStartedCount c.
Proof. cbv zeta. by rewrite OnChange_cases. Qed.

End Subscriber.

(** ** More on the build of an entry *)

Section BuildMore.
Context `{Packages} `{!Store}.
Implicit Types (c : BuildController) (entry : buildEntry) (targets : list TargetSpec).

Lemma buildGoroutine_cases entry c :
  exists line,
    buildGoroutine entry c
    = (tt, c,
       EvDispatch (LogAction (entry_name entry) (entry_spanID entry) InfoLvl
                     {[ FieldNameBuildEvent := "0"%string ]} line)
       :: match validateAll (entry_targets entry) with
          | Some err =>
              [EvDispatch (BuildCompleteAction (entry_name entry) (entry_spanID entry)
                             ∅ (Some err))]
          | None =>
              [EvBuildAndDeploy (entry_targets entry) (entry_buildStateSet entry);
               EvDispatch (BuildCompleteAction (entry_name entry) (entry_spanID entry)
                             (b c (entry_targets entry) (entry_buildStateSet entry)).1
                             (b c (entry_targets entry) (entry_buildStateSet entry)).2)]
          end).
Proof.
  destruct (logBuildEntry_trace
              {| writer_manifestName := entry_name entry;
                 writer_spanID := entry_spanID entry |} entry c)
    as (line & Hlog & _).
  exists line. unfold buildGoroutine, buildAndDeploy, mbind, M_bind. rewrite Hlog.
  unfold receiver, emit, mret, M_ret. simpl.
  destruct (validateAll (entry_targets entry)); [done|].
  by destruct (b c _ _).
Qed.

(** X20. When every target of the entry validates, the build calls the
    engine exactly once, after the summary line, with the entry's targets
    and state set, and then dispatches the build-complete action with the
    result set and the error the engine returned, unchanged. *)
Theorem buildGoroutine_engine_result entry c :
  Forall (fun t => Validate t = None) (entry_targets entry) ->
  exists line,
    buildGoroutine entry c
    = (tt, c, [EvDispatch (LogAction (entry_name entry) (entry_spanID entry) InfoLvl
                             {[ FieldNameBuildEvent := "0"%string ]} line);
               EvBuildAndDeploy (entry_targets entry) (entry_buildStateSet entry);
               EvDispatch (BuildCompleteAction (entry_name entry) (entry_spanID entry)
                             (b c (entry_targets entry) (entry_buildStateSet entry)).1
                             (b c (entry_targets entry) (entry_buildStateSet entry)).2)]).
Proof.
  intros Hok. destruct (buildGoroutine_cases entry c) as (line & Hgo).
  exists line. rewrite Hgo.
  pose proof (validateAll_first (entry_targets entry)) as Hfirst.
  destruct (validateAll (entry_targets entry)) as [err|]; [|done].
  destruct Hfirst as (pre & target & post & Htargets & _ & Htarget).
  rewrite Htargets in Hok. apply Forall_app in Hok as [_ Hok].
  apply Forall_cons in Hok as [Hok _]. congruence.
Qed.

(** X21. The engine is only ever handed validated targets: whenever the
    build of an entry calls the engine, it is with the entry's own targets
    and state set, and every one of these targets validates. *)
Theorem buildGoroutine_engine_gets_validated entry c targets stateSet :
  EvBuildAndDeploy targets stateSet ∈ (buildGoroutine entry c).2 ->
  targets = entry_targets entry
  /\ stateSet = entry_buildStateSet entry
  /\ Forall (fun t => Validate t = None) targets.
Proof.
  destruct (buildGoroutine_cases entry c) as (line & ->). simpl.
  pose proof (validateAll_first (entry_targets entry)) as Hfirst.
  destruct (validateAll (entry_targets entry)) as [err|];
    rewrite !elem_of_cons, elem_of_nil.
  - intros [Hc|[Hc|[]]]; discriminate Hc.
  - intros [Hc|[Hc|[Hc|[]]]]; try discriminate Hc. by injection Hc as -> ->.
Qed.

(** X22. The build of an entry leaves the controller as it was; every
    action it dispatches is tagged with the entry's manifest name and span;
    and it dispatches exactly one build-complete action, as its last
    event. *)
Theorem buildGoroutine_actions_tagged entry c :
  (buildGoroutine entry c).1.2 = c
  /\ (forall a, EvDispatch a ∈ (buildGoroutine entry c).2 ->
                actionManifestName a = entry_name entry
                /\ actionSpanID a = entry_spanID entry)
  /\ exists before result err,
       (buildGoroutine entry c).2
       = before ++ [EvDispatch (BuildCompleteAction (entry_name entry)
                                  (entry_spanID entry) result err)]
       /\ Forall (fun e => ~ isBuildComplete e) before.
Proof.
  destruct (buildGoroutine_cases entry c) as (line & ->). simpl.
  split; [done|]. destruct (validateAll (entry_targets entry)) as [err|]; split.
  - intros a. rewrite !elem_of_cons, elem_of_nil.
    by intros [[= ->]|[[= ->]|[]]].
  - eexists [_], _, _. split; [done|].
    repeat constructor. intros (? & ? & ? & ? & Hc). discriminate Hc.
  - intros a. rewrite !elem_of_cons, elem_of_nil.
    by intros [[= ->]|[[=]|[[= ->]|[]]]].
  - eexists [_; _], _, _. split; [done|].
    repeat constructor; intros (? & ? & ? & ? & Hc); discriminate Hc.
Qed.

Lemma string_app_assoc (s1 s2 s3 : string) : (s1 +:+ s2) +:+ s3 = s1 +:+ s2 +:+ s3.
Proof.
  induction s1 as [|a s1 IH]; [done|].
  change (String a ((s1 +:+ s2) +:+ s3) = String a (s1 +:+ s2 +:+ s3)).
  by rewrite IH.
Qed.

(** X23. Whatever the entry, the summary line ends with the bullet and the
    manifest's name. *)
Theorem logBuildEntry_line_suffix w entry c :
  exists front,
    logBuildEntry w entry c
    = (tt, c, [EvDispatch (LogAction (writer_manifestName w) (writer_spanID w) InfoLvl
                             {[ FieldNameBuildEvent := "0"%string ]}
                             (front +:+ " • " +:+ entry_name entry))]).
Proof.
  unfold logBuildEntry, Infof, Write, mbind, M_bind, mret, M_ret, emit.
  destruct (entry_firstBuild entry); [by exists "Initial Build"%string|].
  case_bool_decide.
  - exists (fmt.d (Z.of_nat (length (entry_filesChanged entry))) +:+ " "
            +:+ (if bool_decide (1 < length (entry_filesChanged entry))%nat
                 then "Files" else "File")
            +:+ " Changed: " +:+ FormatFileChangeList (entry_filesChanged entry)).
    by rewrite !string_app_assoc.
  - by exists (BuildReason_String (entry_buildReason entry)).
Qed.

End BuildMore.

(** ** The order of a range over a Go map *)

Section RangeOrder.
Context `{Packages}.

(** X24. The range over the pending changes may visit them in any order:
    the sorted changed files and the flag come out the same as for the
    order the pending map is listed in. *)
Theorem pendingFileChanges_range_order (ms : ManifestState) (pending : gmap string Time)
    (visited : list (string * Time)) (any : bool) :
  visited ≡ₚ map_to_list pending ->
  sort.Strings (pendingFileChangesLoop ms visited any).1
  = sort.Strings (pendingFileChangesLoop ms (map_to_list pending) any).1
  /\ (pendingFileChangesLoop ms visited any).2
     = (pendingFileChangesLoop ms (map_to_list pending) any).2.
Proof.
  intros Hp. rewrite !pendingFileChangesLoop_eq. simpl. split.
  - apply sort_Strings_order_irrelevant. by rewrite Hp.
  - f_equal. apply eq_true_iff_eq. rewrite !existsb_exists.
    setoid_rewrite <- list_elem_of_In. by setoid_rewrite Hp.
Qed.

End RangeOrder.

(** ** The further properties at work *)

Section MoreExamples.
#[local] Existing Instance Demo.pkgs.
#[local] Existing Instance Demo.store.

Example demo_state_podLookupFails :
  buildStateSet Demo.myapp (buildTargets Demo.myapp) Demo.podLookupFails !! Demo.imageID
  = Some Demo.podLookupFailsImageState.
Proof. vm_compute. reflexivity. Qed.

Example demo_state_web :
  buildStateSet Demo.web Demo.webTargets Demo.webRunning !! Demo.imageID
  = Some Demo.webImageState.
Proof. vm_compute. reflexivity. Qed.

Example demo_state_mixed_image :
  buildStateSet Demo.myapp Demo.mixedSpecs Demo.idle !! Demo.imageID
  = Some Demo.idleImageState.
Proof. vm_compute. reflexivity. Qed.

Example demo_state_mixed_local :
  buildStateSet Demo.myapp Demo.mixedSpecs Demo.idle !! Demo.localID
  = Some Demo.idleLocalState.
Proof. vm_compute. reflexivity. Qed.

Lemma demo_stateSpecs_myapp :
  stateSpecs (buildTargets Demo.myapp) = [Demo.imageSpec].
Proof. vm_compute. reflexivity. Qed.

Lemma demo_stateSpecs_web :
  stateSpecs Demo.webTargets = Demo.webTargets.
Proof. vm_compute. reflexivity. Qed.

(** The image and the local target of the idle manifest are both marked,
    through X2. *)
Lemma buildStateSet_force_uniform_witness :
  BuildState_NeedsForceUpdate Demo.idleImageState
  = BuildState_NeedsForceUpdate Demo.idleLocalState.
Proof.
  apply (buildStateSet_force_uniform Demo.myapp Demo.mixedSpecs Demo.idle
           Demo.imageID Demo.localID).
  - vm_compute. reflexivity.
  - vm_compute. reflexivity.
Defined.

(** The state of the edited image holds the image's last result and its
    two pending files, through X3. *)
Lemma buildStateSet_state_of_status_witness :
  BuildState_LastSuccessfulResult Demo.editedImageState = Some "myapp-image:tilt-1"%string
  /\ length (BuildState_FilesChanged Demo.editedImageState) = 2%nat.
Proof.
  destruct (buildStateSet_state_of_status Demo.myapp (buildTargets Demo.myapp)
              Demo.edited Demo.imageID Demo.editedImageState)
    as (Hres & _ & Hlen).
  - vm_compute. reflexivity.
  - split; [exact Hres|]. rewrite Hlen. vm_compute. reflexivity.
Defined.

(** The edited image has a running container: through X5, the manifest is
    a Kubernetes one and the key is an image target's. *)
Lemma buildStateSet_containers_only_for_images_witness :
  ManifestState_NeedsRebuildFromCrash Demo.edited = false
  /\ (Manifest_IsK8s Demo.myapp = true \/ Manifest_IsDC Demo.myapp = true)
  /\ exists iTarget,
       ImageTargetSpec iTarget ∈ buildTargets Demo.myapp
       /\ ImageTarget_ID iTarget = Demo.imageID.
Proof.
  apply (buildStateSet_containers_only_for_images Demo.myapp (buildTargets Demo.myapp)
           Demo.edited Demo.imageID Demo.editedImageState).
  - vm_compute. reflexivity.
  - left. simpl. discriminate.
Defined.

(** The lookup of the pod fails: through X6, the image's state carries the
    error and no containers. *)
Lemma buildStateSet_pod_containers_witness :
  BuildState_RunningContainerError Demo.podLookupFailsImageState
  = Some "more than one pod"%string
  /\ BuildState_RunningContainers Demo.podLookupFailsImageState = [].
Proof.
  apply (buildStateSet_pod_containers Demo.myapp (buildTargets Demo.myapp)
           Demo.podLookupFails Demo.imageID Demo.podLookupFailsImageState Demo.image).
  - reflexivity.
  - reflexivity.
  - reflexivity.
  - rewrite demo_stateSpecs_myapp. intros spec Hin _.
    by apply list_elem_of_singleton in Hin.
  - vm_compute. reflexivity.
Defined.

(** The image of the docker-compose manifest carries the container of the
    docker-compose runtime, through X7. *)
Lemma buildStateSet_dc_containers_witness :
  BuildState_RunningContainers Demo.webImageState = ["web-1"%string].
Proof.
  apply (buildStateSet_dc_containers Demo.web Demo.webTargets Demo.webRunning
           Demo.imageID Demo.webImageState Demo.image).
  - reflexivity.
  - reflexivity.
  - rewrite demo_stateSpecs_web. intros spec Hin Hid.
    apply elem_of_cons in Hin as [->|Hin]; [done|].
    apply list_elem_of_singleton in Hin as ->. discriminate Hid.
  - vm_compute. reflexivity.
Defined.

(** The two pending changes of the edited image visited in the other
    order, through X24. *)
Lemma pendingFileChanges_range_order_witness :
  sort.Strings
    (pendingFileChangesLoop Demo.edited (reverse (map_to_list Demo.editedPending)) false).1
  = sort.Strings
      (pendingFileChangesLoop Demo.edited (map_to_list Demo.editedPending) false).1
  /\ (pendingFileChangesLoop Demo.edited (reverse (map_to_list Demo.editedPending)) false).2
     = (pendingFileChangesLoop Demo.edited (map_to_list Demo.editedPending) false).2.
Proof.
  apply (pendingFileChanges_range_order Demo.edited Demo.editedPending
           (reverse (map_to_list Demo.editedPending)) false).
  apply (bool_decide_unpack _). vm_compute. exact I.
Defined.

(** A count that is not recorded gives another span, through X13. *)
Lemma SpanIDForBuildLog_inj_witness :
  SpanIDForBuildLog 1 <> SpanIDForBuildLog 2.
Proof. apply (SpanIDForBuildLog_inj 1 2). lia. Defined.

(** The first admission describes the candidate [myapp], through X11. *)
Lemma needsBuild_entry_of_candidate_witness :
  exists mt,
    Demo.next (Demo.storeState 0 1 (Some Demo.firstCandidate)) = Some mt
    /\ entry_name Demo.firstEntry = Manifest_Name (ManifestTarget_Manifest mt)
    /\ entry_targets Demo.firstEntry = buildTargets (ManifestTarget_Manifest mt)
    /\ entry_buildStateSet Demo.firstEntry
       = buildStateSet (ManifestTarget_Manifest mt) (entry_targets Demo.firstEntry)
           (ManifestTarget_State mt)
    /\ entry_firstBuild Demo.firstEntry
       = negb (ManifestState_StartedFirstBuild (ManifestTarget_State mt))
    /\ entry_buildReason Demo.firstEntry = ManifestTarget_NextBuildReason mt
    /\ entry_filesChanged Demo.firstEntry
       = ManifestState_ConfigFilesThatCausedChange (ManifestTarget_State mt)
           ++ BuildStateSet_FilesChanged (entry_buildStateSet Demo.firstEntry)
    /\ forall id, id ∈ dom (entry_buildStateSet Demo.firstEntry) ->
                  exists spec, spec ∈ entry_targets Demo.firstEntry /\ ID spec = id.
Proof.
  apply (needsBuild_entry_of_candidate (H0 := Demo.store)
           (Demo.storeState 0 1 (Some Demo.firstCandidate)) (Demo.controller 0)
           Demo.firstEntry (Demo.controller 1)
           [EvRLockState; EvAvailableBuildSlots; EvNextTargetToBuild; EvRUnlockState]).
  vm_compute. reflexivity.
Defined.

(** After the first admission the controller declines against the store
    that still counts no started build, through X12. *)
Lemma needsBuild_next_admission_witness :
  needsBuild (Demo.storeState 0 1 (Some Demo.firstCandidate)) (Demo.controller 1)
  = ((buildEntry_zero, false), Demo.controller 1, [EvRLockState; EvRUnlockState]).
Proof.
  refine (proj2 (needsBuild_next_admission (H0 := Demo.store)
                   (Demo.storeState 0 1 (Some Demo.firstCandidate)) (Demo.controller 0)
                   Demo.firstEntry (Demo.controller 1)
                   [EvRLockState; EvAvailableBuildSlots; EvNextTargetToBuild; EvRUnlockState]
                   _ (Demo.storeState 0 1 (Some Demo.firstCandidate))) _).
  - vm_compute. reflexivity.
  - reflexivity.
Defined.

(** The spans of the first two admissions differ, through X14. *)
Lemma needsBuild_spans_differ_witness :
  entry_spanID Demo.firstEntry <> entry_spanID Demo.editedEntry.
Proof.
  apply (needsBuild_spans_differ (H0 := Demo.store)
           (Demo.storeState 0 1 (Some Demo.firstCandidate))
           (Demo.storeState 1 1 (Some (Demo.candidate Demo.myapp Demo.edited "Changed Files")))
           (Demo.controller 0) Demo.firstEntry Demo.editedEntry
           (Demo.controller 1) (Demo.controller 2)
           [EvRLockState; EvAvailableBuildSlots; EvNextTargetToBuild; EvRUnlockState]
           [EvRLockState; EvAvailableBuildSlots; EvNextTargetToBuild; EvRUnlockState]).
  - vm_compute. reflexivity.
  - vm_compute. reflexivity.
Defined.

(** The first build of a new controller, through X15. *)
Lemma NewBuildController_first_build_witness :
  Demo.started (Demo.storeState 0 1 (Some Demo.firstCandidate)) = 0
  /\ entry_spanID Demo.firstEntry = "build:1"%string
  /\ buildsStartedCount (Demo.controller 1) = 1
  /\ b (Demo.controller 1) = Demo.engine.
Proof.
  apply (NewBuildController_first_build (H0 := Demo.store) Demo.engine
           (Demo.storeState 0 1 (Some Demo.firstCandidate))
           Demo.firstEntry (Demo.controller 1)
           [EvRLockState; EvAvailableBuildSlots; EvNextTargetToBuild; EvRUnlockState]).
  vm_compute. reflexivity.
Defined.

(** [OnChange] starts the first build of [myapp] at time 1000, through
    X16. *)
Lemma OnChange_starts_build_witness :
  OnChange 1000 (Demo.storeState 0 1 (Some Demo.firstCandidate)) (Demo.controller 0)
  = (tt, Demo.controller 1, Demo.firstOnChangeTrace).
Proof.
  assert (Demo.firstOnChangeTrace
          = [EvRLockState; EvAvailableBuildSlots; EvNextTargetToBuild; EvRUnlockState;
             EvDispatch (BuildStartedAction
                           (Manifest_Name (ManifestTarget_Manifest Demo.firstCandidate)) 1000
                           (entry_filesChanged (admittedEntry (GoInt.add 0 1) Demo.firstCandidate))
                           (ManifestTarget_NextBuildReason Demo.firstCandidate)
                           (SpanIDForBuildLog (GoInt.add 0 1)));
             EvGo (admittedEntry (GoInt.add 0 1) Demo.firstCandidate)]) as ->
    by (vm_compute; reflexivity).
  apply (OnChange_starts_build (H0 := Demo.store) 1000 (Demo.storeState 0 1 (Some Demo.firstCandidate))
           (Demo.controller 0) Demo.firstCandidate).
  - reflexivity.
  - reflexivity.
  - simpl. lia.
  - reflexivity.
Defined.

(** No slot is free: through X17, [OnChange] dispatches nothing. *)
Lemma OnChange_no_build_witness :
  (OnChange 1000 (Demo.storeState 0 0 (Some Demo.firstCandidate)) (Demo.controller 0)).1.2
  = Demo.controller 0
  /\ Forall (fun e => ~ dispatches e /\ ~ startsGoroutine e)
       (OnChange 1000 (Demo.storeState 0 0 (Some Demo.firstCandidate))
          (Demo.controller 0)).2.
Proof.
  apply (OnChange_no_build (H0 := Demo.store) 1000 (Demo.storeState 0 0 (Some Demo.firstCandidate))
           (Demo.controller 0)).
  right. right. left. simpl. lia.
Defined.

(** A second call before the store has counted the first build starts
    nothing, through X18. *)
Lemma OnChange_not_twice_witness :
  OnChange 1001 (Demo.storeState 0 1 (Some Demo.firstCandidate)) (Demo.controller 1)
  = (tt, Demo.controller 1, [EvRLockState; EvRUnlockState]).
Proof.
  apply (OnChange_not_twice (H0 := Demo.store) 1000 1001
           (Demo.storeState 0 1 (Some Demo.firstCandidate))
           (Demo.storeState 0 1 (Some Demo.firstCandidate))
           (Demo.controller 0) (Demo.controller 1)
           Demo.firstOnChangeTrace Demo.firstEntry).
  - vm_compute. reflexivity.
  - do 5 apply list_elem_of_further. apply list_elem_of_here.
  - reflexivity.
Defined.

(** The engine fails: through X20, its error is what the build-complete
    action carries. *)
Lemma buildGoroutine_engine_result_witness :
  exists line,
    buildGoroutine Demo.firstEntry (Demo.failingController 1)
    = (tt, Demo.failingController 1,
       [EvDispatch (LogAction "myapp" "build:1" InfoLvl Demo.buildEvent line);
        EvBuildAndDeploy (entry_targets Demo.firstEntry)
          (entry_buildStateSet Demo.firstEntry);
        EvDispatch (BuildCompleteAction "myapp" "build:1" ∅ (Some "build failed"))]).
Proof.
  apply (buildGoroutine_engine_result Demo.firstEntry (Demo.failingController 1)).
  repeat constructor.
Defined.

(** The engine call of the first build is on validated targets, through
    X21. *)
Lemma buildGoroutine_engine_gets_validated_witness :
  Demo.imageK8sTargets = entry_targets Demo.firstEntry
  /\ entry_buildStateSet Demo.firstEntry = entry_buildStateSet Demo.firstEntry
  /\ Forall (fun t => Validate t = None) Demo.imageK8sTargets.
Proof.
  apply (buildGoroutine_engine_gets_validated Demo.firstEntry (Demo.controller 1)
           Demo.imageK8sTargets (entry_buildStateSet Demo.firstEntry)).
  rewrite demo_build_first. simpl. apply list_elem_of_further, list_elem_of_here.
Defined.

End MoreExamples.
